(** * valuecell.utils.logger: the logging configuration wrapper

    A shallow embedding of [src/python/valuecell/utils/logger.py]
    ([get_log_dir], [setup_logger]) together with the small part of its
    collaborators that the module drives: [os.getenv], [pathlib.Path]
    (construction, [/], [str], [mkdir]) and the handler registry of the
    logging backend ([logger.remove], [logger.add], [logger.info],
    [logger.debug]).

    Three things stay parameters, so that every statement holds for
    whatever they are: [get_system_env_dir] (module [env]), Python's
    [str.upper], and what the backend does to the file system when it
    builds a file sink (parsing the rotation, retention and compression
    options, formatting the file name, opening the file).

    Python statements are embedded in a state-and-exception monad over a
    [World]: a raised exception keeps every mutation made before it, as
    in Python. *)

From Stdlib Require Import String Ascii List.
From stdpp Require Import base option list strings gmap.

Local Open Scope string_scope.

(** ** pathlib: pure POSIX paths *)

Module pathlib.

(** A path is its anchor (the empty string, ["/"] or ["//"]) and the
    names below it; [Path("a/b")] has anchor [""] and names
    [["a"; "b"]]. *)
Record Path := MkPath { anchor : string; names : list string }.

(** [s.split("/")] *)
Fixpoint split_sep (cur : string) (s : string) : list string :=
  match s with
  | EmptyString => [cur]
  | String c s' =>
      if Ascii.eqb c "/" then cur :: split_sep "" s'
      else split_sep (cur ++ String c "") s'
  end.

Fixpoint leading_seps (s : string) : nat :=
  match s with
  | String c s' => if Ascii.eqb c "/" then S (leading_seps s') else 0
  | EmptyString => 0
  end.

(** POSIX [splitroot]: exactly two leading slashes are kept as ["//"],
    any other positive number collapses to ["/"]. *)
Definition root_of (s : string) : string :=
  match leading_seps s with
  | 0 => ""
  | 2 => "//"
  | _ => "/"
  end.

Definition keep_name (x : string) : bool :=
  negb (String.eqb x "") && negb (String.eqb x ".").

(** [Path(s)]: empty and ["."] components are dropped. *)
Definition of_string (s : string) : Path :=
  MkPath (root_of s) (List.filter keep_name (split_sep "" s)).

(** [p / seg]: an anchored segment replaces [p]. *)
Definition truediv (p : Path) (seg : string) : Path :=
  let q := of_string seg in
  if String.eqb (anchor q) "" then MkPath (anchor p) (names p ++ names q)
  else q.

Fixpoint join_names (l : list string) : string :=
  match l with
  | [] => ""
  | [x] => x
  | x :: l' => x ++ "/" ++ join_names l'
  end.

(** [str(p)] *)
Definition str (p : Path) : string :=
  match anchor p, names p with
  | EmptyString, [] => "."
  | a, l => a ++ join_names l
  end.

(** [p.parent]: the anchor and the current directory are their own
    parents. *)
Definition parent (p : Path) : Path :=
  MkPath (anchor p) (removelast (names p)).

#[global] Instance Path_eq_dec : EqDecision Path.
Proof. solve_decision. Defined.

#[global] Instance Path_countable : Countable Path.
Proof.
  apply (inj_countable' (λ p, (anchor p, names p))
                        (λ t, MkPath (fst t) (snd t))).
  by intros [].
Defined.

End pathlib.

Abbreviation Path := pathlib.Path.
Infix "//" := pathlib.truediv (at level 40, left associativity).

(** ** The logging backend: handlers, levels and records *)

Module loguru.

(** What a handler writes to: [sys.stderr] or a file path. *)
Inductive Sink := Stderr | FileSink (path : Path).

(** A registered handler: the arguments of the [logger.add] call that
    made it, with [None] for a keyword the call left to the backend's
    default, and the severity number its level name resolved to. *)
Record Handler := MkHandler {
  sink : Sink;
  format : string;
  level : string;
  levelno : nat;
  colorize : option bool;
  rotation : option string;
  retention : option string;
  compression : option string;
  encoding : option string;
  enqueue : option bool;
  backtrace : option bool;
  diagnose : option bool
}.

(** The backend's level table; names are matched exactly (case
    matters). The module registers no level of its own. *)
Definition level_no (name : string) : option nat :=
  if String.eqb name "TRACE" then Some 5
  else if String.eqb name "DEBUG" then Some 10
  else if String.eqb name "INFO" then Some 20
  else if String.eqb name "SUCCESS" then Some 25
  else if String.eqb name "WARNING" then Some 30
  else if String.eqb name "ERROR" then Some 40
  else if String.eqb name "CRITICAL" then Some 50
  else None.

(** A log record as far as routing sees it. *)
Record LogRecord := MkRecord {
  rec_level : string;
  rec_no : nat;
  message : string
}.

(** A handler takes the records at or above its level. *)
Definition accepts (h : Handler) (r : LogRecord) : bool :=
  Nat.leb (levelno h) (rec_no r).

(** One [logger.<level>(msg)] call: the record and the sinks of the
    handlers it was handed to, in registration order. *)
Record Emission := MkEmission {
  emitted : LogRecord;
  receivers : list Sink
}.

#[global] Instance Sink_eq_dec : EqDecision Sink.
Proof. solve_decision. Defined.

#[global] Instance Handler_eq_dec : EqDecision Handler.
Proof. solve_decision. Defined.

End loguru.

(** ** The world a call runs in *)

(** A file-system node; a directory carries whether entries may be
    created in it. *)
Inductive Node := File | Dir (writable : bool).

(** The file system: the nodes, by their absolute location (the names
    from the root down, with no [".."] left), and the current
    directory. *)
Record FileSystem := MkFS {
  nodes : gmap (list string) Node;
  cwd : list string
}.

Inductive Exn :=
  | FileExistsError
  | FileNotFoundError
  | NotADirectoryError
  | IsADirectoryError
  | PermissionError
  | ValueError (msg : string)
  | OtherError (cls msg : string).

Record World := MkWorld {
  environ : gmap string string;          (* os.environ *)
  fs : FileSystem;                       (* the file system *)
  handlers : list loguru.Handler;        (* the backend's registry, in
                                            registration order *)
  emissions : list loguru.Emission       (* log calls made so far *)
}.

Definition set_environ (e : gmap string string) (w : World) : World :=
  MkWorld e (fs w) (handlers w) (emissions w).

Definition set_fs (f : FileSystem) (w : World) : World :=
  MkWorld (environ w) f (handlers w) (emissions w).

Definition set_handlers (hs : list loguru.Handler) (w : World) : World :=
  MkWorld (environ w) (fs w) hs (emissions w).

Definition set_emissions (es : list loguru.Emission) (w : World) : World :=
  MkWorld (environ w) (fs w) (handlers w) es.

(** ** Statements: state and exceptions *)

Inductive Result (A : Type) :=
  | Ok (a : A)
  | Raise (e : Exn).
Arguments Ok {A} a.
Arguments Raise {A} e.

Definition M (A : Type) : Type := World → Result A * World.

#[global] Instance M_ret : MRet M := λ A a w, (Ok a, w).

#[global] Instance M_bind : MBind M := λ A B f m w,
  match m w with
  | (Ok a, w') => f a w'
  | (Raise e, w') => (Raise e, w')
  end.

Definition raise {A} (e : Exn) : M A := λ w, (Raise e, w).

(** [try: m  except: h] *)
Definition try_except {A} (m : M A) (h : Exn → M A) : M A := λ w,
  match m w with
  | (Ok a, w') => (Ok a, w')
  | (Raise e, w') => h e w'
  end.

Definition get_world : M World := λ w, (Ok w, w).
Definition modify (f : World → World) : M unit := λ w, (Ok (), f w).

(** [if c: body] *)
Definition when (c : bool) (body : M unit) : M unit :=
  if c then body else mret ().

Definition returns {A} (m : M A) (w : World) : bool :=
  match fst (m w) with Ok _ => true | Raise _ => false end.

(** ** os and the file system *)

Module os.

(** [os.getenv(key)] *)
Definition getenv (key : string) : M (option string) :=
  w ← get_world; mret (environ w !! key).

(** [os.getenv(key, default)] *)
Definition getenv_default (key dflt : string) : M string :=
  w ← get_world; mret (default dflt (environ w !! key)).

(** The node at a location. The root always exists; unless the map
    says otherwise it is a writable directory. *)
Definition node (f : FileSystem) (k : list string) : option Node :=
  match k, nodes f !! k with
  | [], Some (Dir b) => Some (Dir b)
  | [], _ => Some (Dir true)
  | _, o => o
  end.

(** One name further from a directory: [".."] goes up (the root is its
    own parent). *)
Definition step (cur : list string) (c : string) : list string :=
  if String.eqb c ".." then removelast cur else (cur ++ [c])%list.

(** Path resolution: every name is looked up in what must be a
    directory. *)
Fixpoint walk (f : FileSystem) (cur : list string) (ns : list string)
    : Result (list string) :=
  match ns with
  | [] => Ok cur
  | c :: ns' =>
      match node f cur with
      | Some (Dir _) => walk f (step cur c) ns'
      | Some File => Raise NotADirectoryError
      | None => Raise FileNotFoundError
      end
  end.

(** Where a path leads: from the root if it is anchored, from the
    current directory otherwise. *)
Definition locate (f : FileSystem) (p : Path) : Result (list string) :=
  walk f (if String.eqb (pathlib.anchor p) "" then cwd f else [])
    (pathlib.names p).

Definition node_at (f : FileSystem) (p : Path) : option Node :=
  match locate f p with
  | Ok k => node f k
  | Raise _ => None
  end.

Definition is_dir (f : FileSystem) (p : Path) : bool :=
  match node_at f p with
  | Some (Dir _) => true
  | _ => false
  end.

Definition is_OSError (e : Exn) : bool :=
  match e with
  | ValueError _ | OtherError _ _ => false
  | _ => true
  end.

Definition ends_up (p : Path) : bool :=
  match last (pathlib.names p) with
  | Some c => String.eqb c ".."
  | None => false
  end.

(** [os.mkdir(p)]: makes one directory, which must not exist yet and
    whose parent must be a writable directory. *)
Definition mkdir (p : Path) : M unit :=
  w ← get_world;
  match locate (fs w) p with
  | Raise e => raise e
  | Ok k =>
      match node (fs w) k with
      | Some _ => raise FileExistsError
      | None =>
          if ends_up p then raise FileExistsError
          else
            match node (fs w) (removelast k) with
            | None => raise FileNotFoundError
            | Some File => raise NotADirectoryError
            | Some (Dir false) => raise PermissionError
            | Some (Dir true) =>
                modify (set_fs (MkFS (<[k := Dir true]> (nodes (fs w)))
                                     (cwd (fs w))))
            end
      end
  end.

End os.

Module Path_ops.

(** [except OSError:] of [Path.mkdir] with [exist_ok=True]: the error
    is dropped when the path is a directory by now; an exception of
    another class is not caught. *)
Definition exist_ok_handler (p : Path) (e : Exn) : M unit :=
  if os.is_OSError e then
    w ← get_world;
    if os.is_dir (fs w) p then mret () else raise e
  else raise e.

(** [p.mkdir(parents=False, exist_ok=True)] *)
Definition mkdir_here (p : Path) : M unit :=
  try_except (os.mkdir p) (λ e,
    match e with
    | FileNotFoundError => raise e
    | _ => exist_ok_handler p e
    end).

(** [p.mkdir(parents=True, exist_ok=True)], the recursion of pathlib
    on the parent; [n] bounds its depth. *)
Fixpoint mkdir_rec (n : nat) (p : Path) : M unit :=
  try_except (os.mkdir p) (λ e,
    match e with
    | FileNotFoundError =>
        match n with
        | 0 => raise e
        | S n' =>
            if decide (pathlib.parent p = p) then raise e
            else (mkdir_rec n' (pathlib.parent p);; mkdir_here p)
        end
    | _ => exist_ok_handler p e
    end).

(** A path has as many proper ancestors as it has names. *)
Definition mkdir (p : Path) : M unit :=
  mkdir_rec (length (pathlib.names p)) p.

End Path_ops.

(** ** The backend's operations *)

Module logger_ops.
Import loguru.

(** The old directories stay whatever the backend does to the files:
    building a sink may create, rotate or compress log files, it does
    not remove or replace a directory. *)
Definition is_dir_node (n : Node) : bool :=
  match n with
  | Dir _ => true
  | File => false
  end.

Definition keep_dirs (old new : gmap (list string) Node)
    : gmap (list string) Node :=
  filter (λ kn, is_dir_node (snd kn) = true) old ∪ new.

Section backend.

(** What building a file sink does: from the path, the rotation,
    retention and compression options and the file system, the
    exception raised if any and the nodes left behind. *)
Variable file_sink_init :
  Path → option string → option string → option string → FileSystem →
  option Exn * gmap (list string) Node.

(** The outcome of building a file sink and the file system after it. *)
Definition built (p : Path) (rot ret comp : option string) (f : FileSystem)
    : option Exn * FileSystem :=
  let r := file_sink_init p rot ret comp f in
  (fst r, MkFS (keep_dirs (nodes f) (snd r)) (cwd f)).

(** The sink is built first; [sys.stderr] needs nothing built. *)
Definition build_sink (s : Sink) (rot ret comp : option string) : M unit :=
  match s with
  | Stderr => mret ()
  | FileSink p =>
      w ← get_world;
      let b := built p rot ret comp (fs w) in
      modify (set_fs (snd b));;
      match fst b with
      | Some e => raise e
      | None => mret ()
      end
  end.

(** [logger.add(...)]: builds the sink, resolves the level name, which
    must be in the level table, and appends the handler. The handler id
    it returns is not used by the module and is left out. *)
Definition add (s : Sink) (fmt lvl : string)
    (col : option bool) (rot ret comp enc : option string)
    (enq bt dg : option bool) : M unit :=
  build_sink s rot ret comp;;
  match level_no lvl with
  | None => raise (ValueError ("Level '" ++ lvl ++ "' does not exist"))
  | Some n =>
      modify (λ w, set_handlers
        (handlers w ++ [MkHandler s fmt lvl n col rot ret comp enc enq bt dg]) w)
  end.

End backend.

(** [logger.remove()]: drops every handler. *)
Definition remove : M unit := modify (set_handlers []).

(** Handing a record to the registry: it goes to every handler that
    accepts it. *)
Definition deliver (hs : list Handler) (r : LogRecord) : Emission :=
  MkEmission r (sink <$> List.filter (λ h, accepts h r) hs).

(** [logger.log(lvl, msg)] for a level of the table *)
Definition log (lvl : string) (no : nat) (msg : string) : M unit :=
  modify (λ w,
    set_emissions
      (emissions w ++ [deliver (handlers w) (MkRecord lvl no msg)]) w).

Definition info (msg : string) : M unit := log "INFO" 20 msg.
Definition debug (msg : string) : M unit := log "DEBUG" 10 msg.

End logger_ops.

(** ** Python strings *)

(** Upper-casing of the ASCII letters, other bytes kept: what
    [str.upper] does to a string of ASCII characters. *)
Definition upper_ascii (c : ascii) : ascii :=
  let n := nat_of_ascii c in
  if Nat.leb 97 n && Nat.leb n 122 then ascii_of_nat (n - 32) else c.

Fixpoint ascii_upper (s : string) : string :=
  match s with
  | EmptyString => EmptyString
  | String c s' => String (upper_ascii c) (ascii_upper s')
  end.

(** Every byte below 128. *)
Fixpoint is_ascii (s : string) : bool :=
  match s with
  | EmptyString => true
  | String c s' => Nat.ltb (nat_of_ascii c) 128 && is_ascii s'
  end.

(** No ASCII lower-case letter. *)
Fixpoint no_lower (s : string) : bool :=
  match s with
  | EmptyString => true
  | String c s' =>
      negb (Nat.leb 97 (nat_of_ascii c) && Nat.leb (nat_of_ascii c) 122)
      && no_lower s'
  end.

(** [f"{b}"] for a bool *)
Definition str_bool (b : bool) : string := if b then "True" else "False".

(** [if s:] for an optional string: neither [None] nor empty. *)
Definition truthy (o : option string) : bool :=
  match o with
  | Some s => negb (String.eqb s "")
  | None => false
  end.

Definition newline : string := String (ascii_of_nat 10) EmptyString.

(** ** valuecell/utils/logger.py *)

Module logger.
Import loguru.

(** The parameters of [setup_logger]. *)
Record Args := MkArgs {
  log_level : string;
  log_dir : option Path;
  rotation : string;
  retention : string;
  compression : string;
  enable_console : bool;
  enable_file : bool
}.

(** The defaults of the signature. *)
Definition default_args : Args :=
  MkArgs "INFO" None "10 MB" "30 days" "zip" true true.

Definition console_format : string :=
  "<green>{time:YYYY-MM-DD HH:mm:ss}</green> | <level>{level: <8}</level> | <cyan>{name}</cyan>:<cyan>{function}</cyan>:<cyan>{line}</cyan> - <level>{message}</level>".

Definition file_format : string :=
  "{time:YYYY-MM-DD HH:mm:ss} | {level: <8} | {name}:{function}:{line} - {message}".

Definition error_format : string :=
  file_format ++ newline ++ "{exception}".

Definition combined_name : string := "valuecell_{time:YYYY-MM-DD}.log".
Definition error_name : string := "error_{time:YYYY-MM-DD}.log".

Definition info_message (d : Path) : string :=
  "日志文件输出目录: " ++ pathlib.str d.

Definition debug_message (lvl : string) (console file : bool) : string :=
  "日志配置完成 - 级别: " ++ lvl ++ ", 控制台: " ++ str_bool console
    ++ ", 文件: " ++ str_bool file.

Section with_env_module.

(** [valuecell.utils.env.get_system_env_dir], which is not part of
    this module: a path that may depend on the environment. *)
Variable get_system_env_dir : gmap string string → Path.

(** [str.upper] *)
Variable upper : string → string.

(** The backend building a file sink, see [logger_ops.build_sink]. *)
Variable file_sink_init :
  Path → option string → option string → option string → FileSystem →
  option Exn * gmap (list string) Node.

Definition system_env_dir : M Path :=
  w ← get_world; mret (get_system_env_dir (environ w)).

(** [get_log_dir()] *)
Definition get_log_dir : M Path :=
  log_dir_env ← os.getenv "LOG_DIR";
  if truthy log_dir_env then
    mret (pathlib.of_string (default "" log_dir_env))
  else
    d ← system_env_dir; mret (d // "logs").

(** Lines 52-54 of [setup_logger]: the three parameters are
    reassigned from the environment. *)
Definition env_overrides (a : Args) : M Args :=
  lvl ← os.getenv_default "LOG_LEVEL" (log_level a);
  let log_level := upper lvl in
  rotation ← os.getenv_default "LOG_ROTATION" (rotation a);
  retention ← os.getenv_default "LOG_RETENTION" (retention a);
  mret (MkArgs log_level (log_dir a) rotation retention (compression a)
          (enable_console a) (enable_file a)).

(** Lines 71-72: [if log_dir is None: log_dir = get_log_dir()] *)
Definition resolve_log_dir (a : Args) : M Path :=
  match log_dir a with
  | None => get_log_dir
  | Some d => mret d
  end.

(** [if enable_file:] body, lines 70-103 *)
Definition add_file_sinks (a : Args) : M unit :=
  log_dir ← resolve_log_dir a;
  Path_ops.mkdir log_dir;;
  logger_ops.add file_sink_init (FileSink (log_dir // combined_name)) file_format "DEBUG"
    None (Some (rotation a)) (Some (retention a)) (Some (compression a))
    (Some "utf-8") (Some true) None None;;
  logger_ops.add file_sink_init (FileSink (log_dir // error_name)) error_format "ERROR"
    None (Some (rotation a)) (Some (retention a)) (Some (compression a))
    (Some "utf-8") (Some true) (Some true) (Some true);;
  logger_ops.info (info_message log_dir).

(** [setup_logger(log_level, log_dir, rotation, retention,
    compression, enable_console, enable_file)] *)
Definition setup_logger (a : Args) : M unit :=
  a ← env_overrides a;
  logger_ops.remove;;
  when (enable_console a)
    (logger_ops.add file_sink_init Stderr console_format (log_level a)
       (Some true) None None None None None None None);;
  when (enable_file a) (add_file_sinks a);;
  logger_ops.debug
    (debug_message (log_level a) (enable_console a) (enable_file a)).

End with_env_module.

(** *** Vocabulary of the statements below *)

(** The handler the call of line 61 registers. *)
Definition console_handler (lvl : string) (n : nat) : Handler :=
  MkHandler Stderr console_format lvl n
    (Some true) None None None None None None None.

(** The handler the call of line 78 registers. *)
Definition combined_handler (d : Path) (a : Args) : Handler :=
  MkHandler (FileSink (d // combined_name)) file_format "DEBUG" 10
    None (Some (rotation a)) (Some (retention a)) (Some (compression a))
    (Some "utf-8") (Some true) None None.

(** The handler the call of line 90 registers. *)
Definition error_handler (d : Path) (a : Args) : Handler :=
  MkHandler (FileSink (d // error_name)) error_format "ERROR" 40
    None (Some (rotation a)) (Some (retention a)) (Some (compression a))
    (Some "utf-8") (Some true) (Some true) (Some true).

(** The registry after lines 57-66, unless line 61 raises. *)
Definition console_part (a : Args) : option (list Handler) :=
  if enable_console a then
    n ← level_no (log_level a); Some [console_handler (log_level a) n]
  else Some [].

(** The two file registrations of lines 78-101, on the file system [f]
    with [hc] in the registry: the exception raised if any, the file
    system and the registry they leave. *)
Definition file_part
    (fsi : Path → option string → option string → option string →
           FileSystem → option Exn * gmap (list string) Node)
    (d : Path) (a : Args) (f : FileSystem) (hc : list Handler)
    : option Exn * FileSystem * list Handler :=
  let b1 := logger_ops.built fsi (d // combined_name) (Some (rotation a))
              (Some (retention a)) (Some (compression a)) f in
  match fst b1 with
  | Some e => (Some e, snd b1, hc)
  | None =>
      let b2 := logger_ops.built fsi (d // error_name) (Some (rotation a))
                  (Some (retention a)) (Some (compression a)) (snd b1) in
      match fst b2 with
      | Some e => (Some e, snd b2, (hc ++ [combined_handler d a])%list)
      | None =>
          (None, snd b2,
           (hc ++ [combined_handler d a; error_handler d a])%list)
      end
  end.

Definition is_file_sink (h : Handler) : bool :=
  match sink h with
  | FileSink _ => true
  | Stderr => false
  end.

Definition is_console_sink (h : Handler) : bool :=
  match sink h with
  | Stderr => true
  | FileSink _ => false
  end.

(** [needle in hay] *)
Definition contains (needle hay : string) : bool :=
  match String.index 0 needle hay with
  | Some _ => true
  | None => false
  end.


End logger.

(** A statement that touches the file system only: its outcome and the
    new file system are a function of the old one, and the rest of the
    world is kept. *)
Definition fs_only {A} (m : M A) : Prop :=
  ∀ f, ∃ r f', ∀ w, fs w = f → m w = (r, set_fs f' w).

Import loguru logger.

(** ** Sample worlds *)

Module samples.

(** A resolver in the style of an XDG configuration directory. *)
Definition config_dir (env : gmap string string) : Path :=
  pathlib.of_string (default "/root" (env !! "HOME")) // ".config" // "valuecell".

(** A backend that opens the file whose name is the path as written:
    an existing file is reused, a missing one is created in a writable
    directory. *)
Definition sink_init (p : Path) (rot ret comp : option string)
    (f : FileSystem) : option Exn * gmap (list string) Node :=
  match os.locate f p with
  | Raise e => (Some e, nodes f)
  | Ok k =>
      match os.node f k with
      | Some File => (None, nodes f)
      | Some (Dir _) => (Some IsADirectoryError, nodes f)
      | None =>
          match os.node f (removelast k) with
          | Some (Dir true) => (None, <[k := File]> (nodes f))
          | _ => (Some PermissionError, nodes f)
          end
      end
  end.

(** A backend that also rejects a rotation it cannot parse, after it
    has opened nothing, and fails to open the error file. *)
Definition picky_init (p : Path) (rot ret comp : option string)
    (f : FileSystem) : option Exn * gmap (list string) Node :=
  if decide (rot = Some "banana")
  then (Some (ValueError "Cannot parse rotation from: 'banana'"), nodes f)
  else if decide (last (pathlib.names p) = Some error_name)
  then (Some PermissionError, nodes f)
  else sink_init p rot ret comp f.

Definition no_env : gmap string string := ∅.

Definition home_env : gmap string string := {[ "HOME" := "/home/u" ]}.

Definition tmp_env : gmap string string :=
  {[ "LOG_DIR" := "/tmp/x"; "LOG_LEVEL" := "debug";
     "LOG_ROTATION" := "1 MB"; "LOG_RETENTION" := "7 days" ]}.

Definition verbose_env : gmap string string := {[ "LOG_LEVEL" := "verbose" ]}.

(** [/tmp] is there and writable; [/var/log] is there and read-only;
    the current directory is [/tmp]. *)
Definition disk : FileSystem :=
  MkFS {[ ["tmp"] := Dir true; ["var"] := Dir true;
          ["var"; "log"] := Dir false ]} ["tmp"].

(** The same with [/var/log] writable. *)
Definition open_disk : FileSystem :=
  MkFS {[ ["tmp"] := Dir true; ["var"] := Dir true;
          ["var"; "log"] := Dir true ]} ["tmp"].

Definition world (env : gmap string string) (hs : list Handler) : World :=
  MkWorld env disk hs [].

(** A handler left over from an earlier configuration. *)
Definition old_handler : Handler := console_handler "WARNING" 30.

Definition console_only : Args :=
  MkArgs "INFO" None "10 MB" "30 days" "zip" true false.

Definition silent : Args :=
  MkArgs "INFO" None "10 MB" "30 days" "zip" false false.

Definition into (d : string) : Args :=
  MkArgs "INFO" (Some (pathlib.of_string d)) "10 MB" "30 days" "zip" true true.

(** [setup_logger] with the sample collaborators. *)
Definition setup (a : Args) : M unit :=
  setup_logger config_dir ascii_upper sink_init a.

End samples.

(** * Properties *)

(** ** The world record *)

Lemma set_fs_id w : set_fs (fs w) w = w.
Proof. by destruct w. Qed.

Lemma set_handlers_id w : set_handlers (handlers w) w = w.
Proof. by destruct w. Qed.

Lemma environ_set_handlers hs w : environ (set_handlers hs w) = environ w.
Proof. reflexivity. Qed.

Lemma fs_set_handlers hs w : fs (set_handlers hs w) = fs w.
Proof. reflexivity. Qed.

(** ** Directory creation *)

Lemma os_mkdir_fs_only p : fs_only (os.mkdir p).
Proof.
  intros f. unfold os.mkdir, mbind, M_bind, get_world, raise, modify.
  destruct (os.locate f p) as [k|e] eqn:Hk.
  2: { exists (Raise e), f. intros w <-. rewrite Hk. by rewrite set_fs_id. }
  destruct (os.node f k) as [nd|] eqn:Hn.
  { exists (Raise FileExistsError), f. intros w <-.
    rewrite Hk, Hn. by rewrite set_fs_id. }
  destruct (os.ends_up p) eqn:Hu.
  { exists (Raise FileExistsError), f. intros w <-.
    rewrite Hk, Hn. by rewrite set_fs_id. }
  destruct (os.node f (removelast k)) as [[|[|]]|] eqn:Hq.
  - exists (Raise NotADirectoryError), f. intros w <-.
    rewrite Hk, Hn, Hq. by rewrite set_fs_id.
  - exists (Ok ()), (MkFS (<[k := Dir true]> (nodes f)) (cwd f)). intros w <-.
    rewrite Hk, Hn, Hq. by destruct w.
  - exists (Raise PermissionError), f. intros w <-.
    rewrite Hk, Hn, Hq. by rewrite set_fs_id.
  - exists (Raise FileNotFoundError), f. intros w <-.
    rewrite Hk, Hn, Hq. by rewrite set_fs_id.
Qed.

Lemma set_fs_set_fs f g w : set_fs f (set_fs g w) = set_fs f w.
Proof. reflexivity. Qed.

Lemma fs_only_ret {A} (a : A) : fs_only (mret a).
Proof. intros f. exists (Ok a), f. intros w <-. unfold mret, M_ret. by rewrite set_fs_id. Qed.

Lemma fs_only_raise {A} e : fs_only (@raise A e).
Proof. intros f. exists (Raise e), f. intros w <-. unfold raise. by rewrite set_fs_id. Qed.

Lemma fs_only_bind {A B} (m : M A) (k : A → M B) :
  fs_only m → (∀ a, fs_only (k a)) → fs_only (m ≫= k).
Proof.
  intros Hm Hk f. destruct (Hm f) as (r & f1 & H1).
  destruct r as [a|e].
  - destruct (Hk a f1) as (r2 & f2 & H2). exists r2, f2. intros w Hw.
    unfold mbind, M_bind. rewrite (H1 w Hw).
    by rewrite (H2 (set_fs f1 w) eq_refl).
  - exists (Raise e), f1. intros w Hw.
    unfold mbind, M_bind. by rewrite (H1 w Hw).
Qed.

Lemma fs_only_try {A} (m : M A) (h : Exn → M A) :
  fs_only m → (∀ e, fs_only (h e)) → fs_only (try_except m h).
Proof.
  intros Hm Hh f. destruct (Hm f) as (r & f1 & H1).
  destruct r as [a|e].
  - exists (Ok a), f1. intros w Hw. unfold try_except. by rewrite (H1 w Hw).
  - destruct (Hh e f1) as (r2 & f2 & H2). exists r2, f2. intros w Hw.
    unfold try_except. rewrite (H1 w Hw).
    by rewrite (H2 (set_fs f1 w) eq_refl).
Qed.

Lemma exist_ok_handler_fs_only p e : fs_only (Path_ops.exist_ok_handler p e).
Proof.
  unfold Path_ops.exist_ok_handler.
  destruct (os.is_OSError e); [|apply fs_only_raise].
  intros f. unfold mbind, M_bind, get_world.
  destruct (os.is_dir f p) eqn:Hd.
  - exists (Ok ()), f. intros w <-. rewrite Hd. unfold mret, M_ret.
    by rewrite set_fs_id.
  - exists (Raise e), f. intros w <-. rewrite Hd. unfold raise.
    by rewrite set_fs_id.
Qed.

Lemma mkdir_here_fs_only p : fs_only (Path_ops.mkdir_here p).
Proof.
  apply fs_only_try; [apply os_mkdir_fs_only|].
  intros []; auto using fs_only_raise, exist_ok_handler_fs_only.
Qed.

Lemma mkdir_rec_fs_only n : ∀ p, fs_only (Path_ops.mkdir_rec n p).
Proof.
  induction n as [|n IH]; intros p; simpl;
    (apply fs_only_try; [apply os_mkdir_fs_only|]);
    intros []; auto using fs_only_raise, exist_ok_handler_fs_only.
  destruct (decide _); [apply fs_only_raise|].
  apply fs_only_bind; [apply IH|]. intros _. apply mkdir_here_fs_only.
Qed.

Lemma mkdir_fs_only p : fs_only (Path_ops.mkdir p).
Proof. apply mkdir_rec_fs_only. Qed.

(** A new entry where there was none changes no resolution. *)
Lemma node_insert_new f k0 n k nd :
  os.node f k0 = None → os.node f k = Some nd →
  os.node (MkFS (<[k0 := n]> (nodes f)) (cwd f)) k = Some nd.
Proof.
  intros H0 Hk.
  destruct (decide (k = k0)) as [->|Hne]; [congruence|].
  unfold os.node in Hk |- *. simpl.
  destruct k; (rewrite lookup_insert_ne by congruence); exact Hk.
Qed.

Lemma walk_insert_new f k0 n ns : ∀ cur k,
  os.node f k0 = None → os.walk f cur ns = Ok k →
  os.walk (MkFS (<[k0 := n]> (nodes f)) (cwd f)) cur ns = Ok k.
Proof.
  induction ns as [|c ns IH]; intros cur k H0 Hw; simpl in *; [done|].
  destruct (os.node f cur) as [[|b]|] eqn:Hc; try done.
  rewrite (node_insert_new f k0 n cur (Dir b) H0 Hc). by apply IH.
Qed.

(** A normal return leaves a directory at the path. *)
Lemma os_mkdir_ok p w w' :
  os.mkdir p w = (Ok (), w') → os.is_dir (fs w') p = true.
Proof.
  unfold os.mkdir, mbind, M_bind, get_world, raise, modify.
  destruct (os.locate (fs w) p) as [k|e] eqn:Hk; [|done].
  destruct (os.node (fs w) k) eqn:Hn; [done|].
  destruct (os.ends_up p); [done|].
  destruct (os.node (fs w) (removelast k)) as [[|[|]]|]; try done.
  intros [= <-]. unfold os.is_dir, os.node_at, os.locate in *. simpl.
  rewrite (walk_insert_new (fs w) k (Dir true) _ _ k Hn Hk).
  unfold os.node in *. simpl.
  destruct k; [by destruct (nodes (fs w) !! []) as [[|?]|]|].
  by rewrite lookup_insert_eq.
Qed.

Lemma exist_ok_handler_ok p e w w' :
  Path_ops.exist_ok_handler p e w = (Ok (), w') →
  os.is_dir (fs w') p = true.
Proof.
  unfold Path_ops.exist_ok_handler, mbind, M_bind, get_world, raise.
  destruct (os.is_OSError e); [|done].
  destruct (os.is_dir (fs w) p) eqn:Hd; [|done].
  by intros [= <-].
Qed.

Lemma mkdir_here_ok p w w' :
  Path_ops.mkdir_here p w = (Ok (), w') → os.is_dir (fs w') p = true.
Proof.
  unfold Path_ops.mkdir_here, try_except.
  destruct (os.mkdir p w) as [[[]|e] w1] eqn:Hm.
  - intros [= <-]. eauto using os_mkdir_ok.
  - destruct e; try done; apply exist_ok_handler_ok.
Qed.

Lemma mkdir_rec_ok n p w w' :
  Path_ops.mkdir_rec n p w = (Ok (), w') → os.is_dir (fs w') p = true.
Proof.
  destruct n as [|n]; simpl; unfold try_except;
    destruct (os.mkdir p w) as [[[]|e] w1] eqn:Hm;
    try (intros [= <-]; eauto using os_mkdir_ok);
    destruct e; try done; try apply exist_ok_handler_ok.
  destruct (decide _); [done|].
  unfold mbind, M_bind.
  destruct (Path_ops.mkdir_rec n (pathlib.parent p) w1) as [[[]|e] w2]; [|done].
  apply mkdir_here_ok.
Qed.

Lemma mkdir_ok p w w' :
  Path_ops.mkdir p w = (Ok (), w') → os.is_dir (fs w') p = true.
Proof. apply mkdir_rec_ok. Qed.

(** [exist_ok]: on a directory the call returns and changes nothing. *)
Lemma mkdir_rec_exists n p w :
  os.is_dir (fs w) p = true → Path_ops.mkdir_rec n p w = (Ok (), w).
Proof.
  intros Hd.
  assert (os.mkdir p w = (Raise FileExistsError, w)) as Hm.
  { unfold os.mkdir, mbind, M_bind, get_world, raise.
    unfold os.is_dir, os.node_at in Hd.
    destruct (os.locate (fs w) p) as [k|e]; [|done].
    by destruct (os.node (fs w) k). }
  assert (Path_ops.exist_ok_handler p FileExistsError w = (Ok (), w)) as He.
  { unfold Path_ops.exist_ok_handler, mbind, M_bind, get_world.
    simpl. by rewrite Hd. }
  destruct n; simpl; unfold try_except; by rewrite Hm.
Qed.

Lemma mkdir_exists p w :
  os.is_dir (fs w) p = true → Path_ops.mkdir p w = (Ok (), w).
Proof. apply mkdir_rec_exists. Qed.

(** The bound of [mkdir_rec] is never what stops it: past the number of
    names, more depth changes nothing. *)
Lemma parent_of_anchor p : pathlib.names p = [] → pathlib.parent p = p.
Proof. destruct p as [a l]. simpl. by intros ->. Qed.

Lemma length_names_parent p :
  length (pathlib.names (pathlib.parent p)) = pred (length (pathlib.names p)).
Proof.
  destruct p as [a l]. simpl.
  induction l as [|x [|y l] IH]; simpl in *; [done..|]. by rewrite IH.
Qed.

Lemma mkdir_rec_succ n : ∀ p w,
  (length (pathlib.names p) ≤ n)%nat →
  Path_ops.mkdir_rec (S n) p w = Path_ops.mkdir_rec n p w.
Proof.
  induction n as [|n IH]; intros p w Hn.
  - assert (pathlib.names p = []) as Hnil
      by (destruct (pathlib.names p); [done|simpl in Hn; lia]).
    simpl. unfold try_except.
    destruct (os.mkdir p w) as [[[]|e] w1]; [done|].
    destruct e; try done.
    rewrite decide_True by by apply parent_of_anchor. done.
  - change (Path_ops.mkdir_rec (S (S n)) p w) with
      (try_except (os.mkdir p) (λ e,
         match e with
         | FileNotFoundError =>
             if decide (pathlib.parent p = p) then raise e
             else (Path_ops.mkdir_rec (S n) (pathlib.parent p);;
                   Path_ops.mkdir_here p)
         | _ => Path_ops.exist_ok_handler p e
         end) w).
    change (Path_ops.mkdir_rec (S n) p w) with
      (try_except (os.mkdir p) (λ e,
         match e with
         | FileNotFoundError =>
             if decide (pathlib.parent p = p) then raise e
             else (Path_ops.mkdir_rec n (pathlib.parent p);;
                   Path_ops.mkdir_here p)
         | _ => Path_ops.exist_ok_handler p e
         end) w).
    unfold try_except.
    destruct (os.mkdir p w) as [[[]|e] w1]; [done|].
    destruct e; try done.
    destruct (decide _); [done|].
    unfold mbind, M_bind. rewrite IH; [done|].
    rewrite length_names_parent. lia.
Qed.

Lemma mkdir_rec_enough k p w :
  Path_ops.mkdir_rec (length (pathlib.names p) + k) p w = Path_ops.mkdir p w.
Proof.
  induction k as [|k IH].
  - by rewrite Nat.add_0_r.
  - rewrite Nat.add_succ_r, mkdir_rec_succ by lia. exact IH.
Qed.


(** ** Building a sink keeps the directories *)

Lemma keep_dirs_node f g k b :
  os.node f k = Some (Dir b) →
  ∃ b', os.node (MkFS (logger_ops.keep_dirs (nodes f) g) (cwd f)) k
          = Some (Dir b').
Proof.
  unfold os.node, logger_ops.keep_dirs. simpl. intros Hk.
  destruct k as [|c k].
  - destruct ((_ ∪ g) !! []) as [[|b1]|]; by eexists.
  - exists b. apply lookup_union_Some_l. by apply map_lookup_filter_Some.
Qed.

Lemma keep_dirs_walk f g ns : ∀ cur k,
  os.walk f cur ns = Ok k →
  os.walk (MkFS (logger_ops.keep_dirs (nodes f) g) (cwd f)) cur ns = Ok k.
Proof.
  induction ns as [|c ns IH]; intros cur k Hw; simpl in *; [done|].
  destruct (os.node f cur) as [[|b]|] eqn:Hc; try done.
  destruct (keep_dirs_node f g cur b Hc) as [b' ->]. by apply IH.
Qed.

Lemma keep_dirs_is_dir f g p :
  os.is_dir f p = true →
  os.is_dir (MkFS (logger_ops.keep_dirs (nodes f) g) (cwd f)) p = true.
Proof.
  unfold os.is_dir, os.node_at, os.locate. simpl.
  destruct (os.walk f _ _) as [k|e] eqn:Hw; [|done].
  rewrite (keep_dirs_walk f g _ _ k Hw).
  destruct (os.node f k) as [[|b]|] eqn:Hk; try done.
  by destruct (keep_dirs_node f g k b Hk) as [b' ->].
Qed.

Lemma built_is_dir fsi p rot ret comp f q :
  os.is_dir f q = true →
  os.is_dir (snd (logger_ops.built fsi p rot ret comp f)) q = true.
Proof. apply keep_dirs_is_dir. Qed.

(** ** Running the module's functions *)

Section run.

Variable get_system_env_dir : gmap string string → Path.
Variable upper : string → string.
Variable file_sink_init :
  Path → option string → option string → option string → FileSystem →
  option Exn * gmap (list string) Node.

Local Abbreviation get_log_dir := (logger.get_log_dir get_system_env_dir).
Local Abbreviation resolve_log_dir := (logger.resolve_log_dir get_system_env_dir).
Local Abbreviation env_overrides := (logger.env_overrides upper).
Local Abbreviation add_file_sinks :=
  (logger.add_file_sinks get_system_env_dir file_sink_init).
Local Abbreviation setup_logger :=
  (logger.setup_logger get_system_env_dir upper file_sink_init).
Local Abbreviation file_part := (logger.file_part file_sink_init).

Lemma env_overrides_run a w :
  env_overrides a w =
    (Ok (MkArgs (upper (default (log_level a) (environ w !! "LOG_LEVEL")))
           (log_dir a)
           (default (rotation a) (environ w !! "LOG_ROTATION"))
           (default (retention a) (environ w !! "LOG_RETENTION"))
           (compression a) (enable_console a) (enable_file a)), w).
Proof. reflexivity. Qed.

Lemma get_log_dir_run w :
  get_log_dir w =
    (Ok (if truthy (environ w !! "LOG_DIR")
         then pathlib.of_string (default "" (environ w !! "LOG_DIR"))
         else get_system_env_dir (environ w) // "logs"), w).
Proof.
  unfold logger.get_log_dir, os.getenv, system_env_dir, mbind, M_bind,
    get_world, mret, M_ret.
  by destruct (truthy _).
Qed.

(** Resolving the directory reads the environment and nothing else. *)
Lemma resolve_log_dir_env a w d :
  resolve_log_dir a w = (Ok d, w) →
  ∀ w', environ w' = environ w → resolve_log_dir a w' = (Ok d, w').
Proof.
  unfold logger.resolve_log_dir. intros H w' He.
  destruct (log_dir a).
  - unfold mret, M_ret in *. congruence.
  - rewrite get_log_dir_run in *. rewrite He. congruence.
Qed.

Lemma resolve_log_dir_total a w : ∃ d, resolve_log_dir a w = (Ok d, w).
Proof.
  unfold logger.resolve_log_dir. destruct (log_dir a); [by eexists|].
  rewrite get_log_dir_run. by eexists.
Qed.

Lemma mkdir_transfer d w r wm :
  Path_ops.mkdir d w = (r, wm) →
  ∀ w', fs w' = fs w → Path_ops.mkdir d w' = (r, set_fs (fs wm) w').
Proof.
  intros H w' Hf. destruct (mkdir_fs_only d (fs w)) as (r0 & f0 & H0).
  rewrite (H0 w eq_refl) in H. injection H as <- <-.
  by rewrite (H0 w' Hf).
Qed.

(** The body of [if enable_file:]. *)
Lemma add_file_sinks_run a w d r wm :
  resolve_log_dir a w = (Ok d, w) →
  Path_ops.mkdir d w = (r, wm) →
  add_file_sinks a w =
    match r with
    | Raise e => (Raise e, wm)
    | Ok _ =>
        match file_part d a (fs wm) (handlers w) with
        | (Some e, f, hs) =>
            (Raise e, MkWorld (environ w) f hs (emissions w))
        | (None, f, hs) =>
            (Ok (),
             MkWorld (environ w) f hs
               (emissions w ++
                  [logger_ops.deliver hs (MkRecord "INFO" 20 (info_message d))])%list)
        end
    end.
Proof.
  intros Hd Hm.
  pose proof (mkdir_transfer _ _ _ _ Hm w eq_refl) as Hm'.
  assert (wm = set_fs (fs wm) w) as Hwm by congruence.
  unfold logger.add_file_sinks, mbind, M_bind. rewrite Hd, Hm.
  destruct r as [[]|e]; [|done].
  rewrite Hwm.
  unfold logger_ops.add, logger_ops.build_sink, logger_ops.info,
    logger_ops.log, logger.file_part, modify, mbind, M_bind, get_world, raise,
    mret, M_ret.
  cbn [level_no String.eqb Ascii.eqb Bool.eqb].
  cbn [set_handlers set_emissions set_fs environ fs handlers emissions fst snd].
  destruct (fst (logger_ops.built _ (d // combined_name) _ _ _ _)); [done|].
  cbn [set_handlers set_emissions set_fs environ fs handlers emissions fst snd].
  destruct (fst (logger_ops.built _ (d // error_name) _ _ _ _)); [done|].
  cbn [set_handlers set_emissions set_fs environ fs handlers emissions fst snd].
  by rewrite <- ?app_assoc.
Qed.

(** [setup_logger], statement by statement. *)
Lemma setup_logger_run a w a' d r wm :
  env_overrides a w = (Ok a', w) →
  resolve_log_dir a w = (Ok d, w) →
  Path_ops.mkdir d w = (r, wm) →
  setup_logger a w =
    match console_part a' with
    | None =>
        (Raise (ValueError ("Level '" ++ log_level a' ++ "' does not exist")),
         set_handlers [] w)
    | Some hc =>
        if enable_file a then
          match r with
          | Raise e => (Raise e, MkWorld (environ w) (fs wm) hc (emissions w))
          | Ok _ =>
              match file_part d a' (fs wm) hc with
              | (Some e, f, hs) =>
                  (Raise e, MkWorld (environ w) f hs (emissions w))
              | (None, f, hs) =>
                  (Ok (),
                   MkWorld (environ w) f hs
                     (emissions w ++
                        [logger_ops.deliver hs
                           (MkRecord "INFO" 20 (info_message d));
                         logger_ops.deliver hs
                           (MkRecord "DEBUG" 10
                              (debug_message (log_level a')
                                 (enable_console a) (enable_file a)))])%list)
              end
          end
        else
          (Ok (),
           MkWorld (environ w) (fs w) hc
             (emissions w ++
                [logger_ops.deliver hc
                   (MkRecord "DEBUG" 10
                      (debug_message (log_level a')
                         (enable_console a) (enable_file a)))])%list)
    end.
Proof.
  intros Ha Hd Hm.
  assert (resolve_log_dir a' = resolve_log_dir a) as Hres.
  { rewrite env_overrides_run in Ha. by injection Ha as <-. }
  assert (enable_console a' = enable_console a ∧
          enable_file a' = enable_file a) as [Hc Hf].
  { rewrite env_overrides_run in Ha. by injection Ha as <-. }
  unfold logger.setup_logger.
  unfold mbind at 1. unfold M_bind at 1. rewrite Ha.
  unfold logger_ops.remove, logger_ops.debug, logger_ops.log, console_part.
  rewrite Hc, Hf.
  unfold mbind, M_bind, modify, when.
  destruct (enable_console a).
  - unfold logger_ops.add, logger_ops.build_sink, mbind, M_bind, mret, M_ret.
    destruct (level_no (log_level a')) as [n|]; [|done].
    unfold modify. simpl option_bind. cbv iota beta.
    destruct (enable_file a); [|done].
    set (w1 := set_handlers _ (set_handlers [] w)).
    rewrite (add_file_sinks_run a' w1 d r (set_fs (fs wm) w1)).
    + destruct r as [[]|e]; [|done]. subst w1.
      cbn [set_handlers set_emissions set_fs environ fs handlers emissions app].
      destruct (logger.file_part _ _ _ _ _) as [[[e|] f] hs]; [done|].
      cbn [set_handlers set_emissions set_fs environ fs handlers emissions].
      by rewrite <- ?app_assoc.
    + rewrite Hres. by apply (resolve_log_dir_env a w d).
    + by apply (mkdir_transfer d w r wm).
  - unfold mret, M_ret.
    destruct (enable_file a); [|done].
    set (w1 := set_handlers [] w).
    rewrite (add_file_sinks_run a' w1 d r (set_fs (fs wm) w1)).
    + destruct r as [[]|e]; [|done]. subst w1.
      cbn [set_handlers set_emissions set_fs environ fs handlers emissions app].
      destruct (logger.file_part _ _ _ _ _) as [[[e|] f] hs]; [done|].
      cbn [set_handlers set_emissions set_fs environ fs handlers emissions].
      by rewrite <- ?app_assoc.
    + rewrite Hres. by apply (resolve_log_dir_env a w d).
    + by apply (mkdir_transfer d w r wm).
Qed.

Lemma setup_logger_inputs a w :
  ∃ a' d r wm,
    env_overrides a w = (Ok a', w) ∧
    resolve_log_dir a w = (Ok d, w) ∧
    Path_ops.mkdir d w = (r, wm).
Proof.
  destruct (resolve_log_dir_total a w) as [d Hd].
  destruct (Path_ops.mkdir d w) as [r wm] eqn:Hm.
  eexists _, d, r, wm. split; [apply env_overrides_run|done].
Qed.

Lemma returns_Ok {A} (m : M A) w :
  returns m w = true ↔ ∃ x, fst (m w) = Ok x.
Proof.
  unfold returns. destruct (fst (m w)); split; try done; eauto.
  by intros [? ?].
Qed.

(** The shapes the file part can take. *)
Lemma file_part_cases d a f hc :
  (∃ f', file_part d a f hc
           = (None, f', (hc ++ [combined_handler d a; error_handler d a])%list)) ∨
  (∃ e f', file_part d a f hc = (Some e, f', hc)) ∨
  (∃ e f', file_part d a f hc
             = (Some e, f', (hc ++ [combined_handler d a])%list)).
Proof.
  unfold logger.file_part.
  destruct (fst (logger_ops.built _ (d // combined_name) _ _ _ _)) as [e|].
  { right; left. by eexists _, _. }
  destruct (fst (logger_ops.built _ (d // error_name) _ _ _ _)) as [e|].
  { right; right. by eexists _, _. }
  left. by eexists.
Qed.

Lemma file_part_is_dir d a f hc q :
  os.is_dir f q = true →
  os.is_dir (snd (fst (file_part d a f hc))) q = true.
Proof.
  intros Hq. unfold logger.file_part.
  destruct (fst (logger_ops.built _ (d // combined_name) _ _ _ _)) as [e|];
    cbn [fst snd]; [by apply built_is_dir|].
  destruct (fst (logger_ops.built _ (d // error_name) _ _ _ _)) as [e|];
    cbn [fst snd]; by do 2 apply built_is_dir.
Qed.

(** The file part reads the rotation, the retention and the
    compression of the arguments, nothing else. *)
Lemma file_part_args d a1 a2 f hc :
  rotation a1 = rotation a2 → retention a1 = retention a2 →
  compression a1 = compression a2 →
  file_part d a1 f hc = file_part d a2 f hc.
Proof.
  intros H1 H2 H3.
  unfold logger.file_part, combined_handler, error_handler.
  by rewrite H1, H2, H3.
Qed.

(** ** get_log_dir *)

(** C1: with [LOG_DIR] set to a non-empty string [s], [get_log_dir]
    returns the path [Path(s)]; with [LOG_DIR] absent or empty it
    returns [get_system_env_dir() / "logs"]; in every environment it
    returns a path, raises nothing and changes nothing. *)
Theorem get_log_dir_resolves w :
  (∀ s, environ w !! "LOG_DIR" = Some s → s ≠ "" →
        get_log_dir w = (Ok (pathlib.of_string s), w)) ∧
  (environ w !! "LOG_DIR" = None ∨ environ w !! "LOG_DIR" = Some "" →
        get_log_dir w = (Ok (get_system_env_dir (environ w) // "logs"), w)) ∧
  (∃ p, get_log_dir w = (Ok p, w)).
Proof.
  rewrite get_log_dir_run. split; [|split].
  - intros s -> Hs. simpl.
    destruct (String.eqb_spec s ""); [done|reflexivity].
  - by intros [-> | ->].
  - by eexists.
Qed.

(** ** setup_logger: no sink asked for *)

(** C8: with [enable_console=False] and [enable_file=False] the call
    returns normally and leaves the registry empty. *)
Theorem setup_logger_no_sinks a w :
  enable_console a = false → enable_file a = false →
  fst (setup_logger a w) = Ok () ∧ handlers (snd (setup_logger a w)) = [].
Proof.
  intros Hc Hf.
  destruct (setup_logger_inputs a w) as (a' & d & r & wm & Ha & Hd & Hm).
  rewrite (setup_logger_run a w a' d r wm Ha Hd Hm).
  assert (enable_console a' = false) as Hc'.
  { rewrite env_overrides_run in Ha. by injection Ha as <-. }
  unfold console_part. by rewrite Hc', Hf.
Qed.

Lemma handlers_distinct d a lvl n :
  NoDup [console_handler lvl n; combined_handler d a; error_handler d a].
Proof.
  rewrite !NoDup_cons, !not_elem_of_cons.
  repeat split; try discriminate; try apply not_elem_of_nil.
  apply NoDup_nil. done.
Qed.

Lemma console_part_cases a :
  console_part a = None ∨ console_part a = Some [] ∧ enable_console a = false ∨
  ∃ n, level_no (log_level a) = Some n ∧ enable_console a = true ∧
       console_part a = Some [console_handler (log_level a) n].
Proof.
  unfold console_part. destruct (enable_console a); [|by right; left].
  destruct (level_no (log_level a)) as [n|]; [|by left].
  right; right. by exists n.
Qed.

Local Ltac nodup_handlers :=
  repeat (apply NoDup_cons; split;
          [rewrite ?not_elem_of_cons; repeat split;
           try discriminate; apply not_elem_of_nil|]);
  apply NoDup_nil_2.

(** ** setup_logger: reset, then rebuild *)

(** The outcome, the registry and the file system after a call are
    decided by the arguments, the environment and the file system. *)
Lemma setup_logger_same_env a w w' :
  environ w' = environ w → fs w' = fs w →
  fst (setup_logger a w') = fst (setup_logger a w) ∧
  handlers (snd (setup_logger a w')) = handlers (snd (setup_logger a w)) ∧
  fs (snd (setup_logger a w')) = fs (snd (setup_logger a w)).
Proof.
  intros He Hf.
  destruct (setup_logger_inputs a w) as (a' & d & r & wm & Ha & Hd & Hm).
  assert (env_overrides a w' = (Ok a', w')) as Ha'.
  { rewrite env_overrides_run in Ha |- *. rewrite He. congruence. }
  rewrite (setup_logger_run a w a' d r wm Ha Hd Hm).
  rewrite (setup_logger_run a w' a' d r (set_fs (fs wm) w') Ha'
             (resolve_log_dir_env a w d Hd w' He)
             (mkdir_transfer d w r wm Hm w' Hf)).
  destruct (console_part a') as [hc|]; [|done].
  destruct (enable_file a); [|done].
  destruct r as [[]|e]; [|done]. cbn [fs set_fs].
  by destruct (file_part d a' (fs wm) hc) as [[[e|] f] hs].
Qed.

(** C3: a second call leaves the registry that the same call leaves
    in any world with the same environment and file system, whatever
    handlers were registered before it: nothing of the first call is
    kept, no handler is registered twice, and a call that returns
    leaves exactly the console handler (if asked for) followed by the
    two file handlers (if asked for). *)
Theorem setup_logger_twice a1 a2 w w' :
  let w1 := snd (setup_logger a1 w) in
  let w2 := snd (setup_logger a2 w1) in
  environ w' = environ w1 → fs w' = fs w1 →
  handlers w2 = handlers (snd (setup_logger a2 w')) ∧
  NoDup (handlers w2) ∧
  (returns (setup_logger a2) w1 = true →
     ∃ a' d, env_overrides a2 w1 = (Ok a', w1) ∧
             resolve_log_dir a2 w1 = (Ok d, w1) ∧
       handlers w2 =
         (default [] (console_part a') ++
          (if enable_file a2
           then [combined_handler d a'; error_handler d a'] else []))%list ∧
       length (handlers w2) =
         ((if enable_console a2 then 1 else 0) +
          (if enable_file a2 then 2 else 0))%nat).
Proof.
  intros w1 w2 He Hf. subst w2. generalize dependent w1. intros w1 He Hf.
  split; [|split].
  - symmetry. by apply setup_logger_same_env.
  - destruct (setup_logger_inputs a2 w1) as (a' & d & r & wm & Ha & Hd & Hm).
    rewrite (setup_logger_run a2 w1 a' d r wm Ha Hd Hm).
    destruct (console_part_cases a') as [-> | [[-> _] | (n & _ & _ & ->)]];
      [apply NoDup_nil_2|..];
      (destruct (enable_file a2); [destruct r as [[]|e]|]);
      try (destruct (file_part_cases d a' (fs wm) [])
             as [(f' & ->) | [(e & f' & ->) | (e & f' & ->)]]);
      try (destruct (file_part_cases d a' (fs wm)
                       [console_handler (log_level a') n])
             as [(f' & ->) | [(e & f' & ->) | (e & f' & ->)]]);
      simpl; nodup_handlers.
  - intros Hret.
    destruct (setup_logger_inputs a2 w1) as (a' & d & r & wm & Ha & Hd & Hm).
    exists a', d. split; [done|]. split; [done|].
    unfold returns in Hret.
    rewrite (setup_logger_run a2 w1 a' d r wm Ha Hd Hm) in Hret |- *.
    assert (enable_console a' = enable_console a2) as Hc.
    { rewrite env_overrides_run in Ha. by injection Ha as <-. }
    destruct (console_part a') as [hc|] eqn:Hcp; [|done].
    assert (length hc = if enable_console a2 then 1 else 0) as Hlen.
    { destruct (console_part_cases a') as [Hn | [[Hn Hc'] | (n & _ & Hc' & Hn)]];
        rewrite Hn in Hcp; [done|..]; injection Hcp as <-;
        by rewrite <- Hc, Hc'. }
    destruct (enable_file a2).
    + destruct r as [[]|e]; [|done].
      destruct (file_part_cases d a' (fs wm) hc)
        as [(f' & Hfp) | [(e & f' & Hfp) | (e & f' & Hfp)]];
        rewrite Hfp in Hret |- *; [|done..].
      simpl. split; [done|]. rewrite length_app, Hlen. simpl. lia.
    + simpl. rewrite app_nil_r. split; [done|]. rewrite Hlen. lia.
Qed.

(** ** setup_logger: a failing directory creation *)

(** C4, as the code has it: when [log_dir.mkdir] raises, in a call
    that reaches it, [setup_logger] raises the same exception and
    registers no file handler; the registry is by then reset, and
    holds the console handler if [enable_console] and nothing else. *)
Theorem setup_logger_mkdir_failure a w a' d e wm hc :
  env_overrides a w = (Ok a', w) →
  resolve_log_dir a w = (Ok d, w) →
  enable_file a = true →
  console_part a' = Some hc →
  Path_ops.mkdir d w = (Raise e, wm) →
  setup_logger a w = (Raise e, MkWorld (environ w) (fs wm) hc (emissions w)) ∧
  Forall (λ h, is_file_sink h = false) hc ∧
  (enable_console a = false → hc = []) ∧
  (enable_console a = true →
     ∃ n, level_no (log_level a') = Some n ∧
          hc = [console_handler (log_level a') n]).
Proof.
  intros Ha Hd Hf Hc Hm.
  rewrite (setup_logger_run a w a' d (Raise e) wm Ha Hd Hm), Hc, Hf.
  split; [done|].
  assert (enable_console a' = enable_console a) as Hcon.
  { rewrite env_overrides_run in Ha. by injection Ha as <-. }
  destruct (console_part_cases a') as [Hn | [[Hn Hc'] | (n & Hl & Hc' & Hn)]];
    rewrite Hn in Hc; [done|..]; injection Hc as <-; rewrite <- Hcon, Hc'.
  - repeat split; [constructor|done].
  - repeat split; [by repeat constructor|done|]. intros _. by exists n.
Qed.

(** ** setup_logger: the file handlers *)

(** C5: a call with [enable_file=True] that returns has registered
    exactly two file handlers, after the console handler if any: the
    combined one (level DEBUG, [valuecell_{time:YYYY-MM-DD}.log]) and
    then the error one (level ERROR, [error_{time:YYYY-MM-DD}.log]),
    both with the rotation and retention in force, the caller's
    compression and [enqueue=True]. A record of severity 40 (ERROR) or
    more is accepted by both; an INFO record only by the combined
    one. *)
Theorem setup_logger_file_sinks a w :
  enable_file a = true → returns (setup_logger a) w = true →
  ∃ a' d hc,
    env_overrides a w = (Ok a', w) ∧ resolve_log_dir a w = (Ok d, w) ∧
    let hcomb := combined_handler d a' in
    let herr := error_handler d a' in
    let hs := handlers (snd (setup_logger a w)) in
    hs = (hc ++ [hcomb; herr])%list ∧
    Forall (λ h, is_file_sink h = false) hc ∧
    (sink hcomb = FileSink (d // "valuecell_{time:YYYY-MM-DD}.log") ∧
     level hcomb = "DEBUG" ∧ level_no "DEBUG" = Some (levelno hcomb)) ∧
    (sink herr = FileSink (d // "error_{time:YYYY-MM-DD}.log") ∧
     level herr = "ERROR" ∧ level_no "ERROR" = Some (levelno herr)) ∧
    (∀ h, h = hcomb ∨ h = herr →
       loguru.rotation h = Some (rotation a') ∧
       loguru.retention h = Some (retention a') ∧
       loguru.compression h = Some (compression a) ∧
       enqueue h = Some true) ∧
    (∀ r, (40 ≤ rec_no r)%nat →
       List.filter is_file_sink (List.filter (λ h, accepts h r) hs)
         = [hcomb; herr]) ∧
    (∀ r, rec_no r = 20 →
       List.filter is_file_sink (List.filter (λ h, accepts h r) hs)
         = [hcomb]).
Proof.
  intros Hf Hret.
  destruct (setup_logger_inputs a w) as (a' & d & r & wm & Ha & Hd & Hm).
  unfold returns in Hret.
  rewrite (setup_logger_run a w a' d r wm Ha Hd Hm), Hf in Hret |- *.
  assert (compression a' = compression a) as Hcomp.
  { rewrite env_overrides_run in Ha. by injection Ha as <-. }
  destruct (console_part a') as [hc|] eqn:Hc; [|done].
  destruct r as [[]|e]; [|done].
  destruct (file_part_cases d a' (fs wm) hc)
    as [(f' & Hfp) | [(e & f' & Hfp) | (e & f' & Hfp)]];
    rewrite Hfp in Hret |- *; [|done..].
  exists a', d, hc. split; [done|]. split; [done|]. cbn zeta.
  assert (Forall (λ h, is_file_sink h = false) hc) as Hnf.
  { destruct (console_part_cases a') as [Hn | [[Hn _] | (n & _ & _ & Hn)]];
      rewrite Hn in Hc; [done|..]; injection Hc as <-;
      by repeat constructor. }
  assert (∀ r, List.filter is_file_sink (List.filter (λ h, accepts h r) hc) = [])
    as Hnone.
  { intros r. clear -Hnf. induction Hnf as [|h l Hh _ IH]; [done|].
    simpl. destruct (accepts h r); [|done]. simpl. by rewrite Hh. }
  split; [done|]. split; [done|]. split; [done|]. split; [done|].
  split; [|split].
  - intros h [-> | ->]; by rewrite <- Hcomp.
  - intros r Hr. simpl handlers.
    assert (accepts (combined_handler d a') r = true) as H1
      by (apply Nat.leb_le; simpl; lia).
    assert (accepts (error_handler d a') r = true) as H2
      by (apply Nat.leb_le; simpl; lia).
    rewrite !List.filter_app, Hnone. cbn [List.filter].
    by rewrite H1, H2.
  - intros r Hr. simpl handlers.
    assert (accepts (combined_handler d a') r = true) as H1
      by (apply Nat.leb_le; simpl; lia).
    assert (accepts (error_handler d a') r = false) as H2
      by (apply Nat.leb_gt; simpl; lia).
    rewrite !List.filter_app, Hnone. cbn [List.filter].
    by rewrite H1, H2.
Qed.

(** ** setup_logger: the console handler *)

Lemma console_format_fields :
  Forall (λ field, contains field console_format = true)
    ["{time:"; "{level:"; "{name}"; "{function}"; "{line}"; "{message}"].
Proof. repeat constructor. Qed.

(** C7, as the code has it: in a call with [enable_console=True]
    whose level, after the environment override and upper-casing, is
    a name of the backend's level table, exactly one console handler
    is registered, first in the registry: it writes to [sys.stderr],
    is colorized, has that level, and its format names the time, the
    level, the logger name, the function, the line and the message.
    This holds whether or not the file part of the call succeeds. *)
Theorem setup_logger_console_sink a w a' n :
  enable_console a = true →
  env_overrides a w = (Ok a', w) →
  level_no (log_level a') = Some n →
  ∃ h rest,
    handlers (snd (setup_logger a w)) = h :: rest ∧
    List.filter is_console_sink (handlers (snd (setup_logger a w))) = [h] ∧
    sink h = Stderr ∧ colorize h = Some true ∧
    level h = log_level a' ∧ levelno h = n ∧
    Forall (λ field, contains field (format h) = true)
      ["{time:"; "{level:"; "{name}"; "{function}"; "{line}"; "{message}"].
Proof.
  intros Hc Ha Hn.
  destruct (setup_logger_inputs a w) as (a0 & d & r & wm & Ha0 & Hd & Hm).
  assert (a0 = a') as -> by congruence.
  rewrite (setup_logger_run a w a' d r wm Ha Hd Hm).
  assert (enable_console a' = true) as Hc'.
  { rewrite env_overrides_run in Ha. injection Ha as <-. done. }
  unfold console_part. rewrite Hc', Hn. simpl.
  exists (console_handler (log_level a') n).
  destruct (enable_file a); [destruct r as [[]|e]|];
    try (destruct (file_part_cases d a' (fs wm)
                     [console_handler (log_level a') n])
           as [(f' & ->) | [(e & f' & ->) | (e & f' & ->)]]);
    simpl; eexists; (split; [reflexivity|]);
    repeat split; apply console_format_fields.
Qed.

(** ** setup_logger: the two log lines *)


(** ** setup_logger: the directory comes first *)

Lemma no_file_sink_in_console_part a hc h :
  console_part a = Some hc → h ∈ hc → is_file_sink h = false.
Proof.
  intros Hc Hin.
  destruct (console_part_cases a) as [Hn | [[Hn _] | (n & _ & _ & Hn)]];
    rewrite Hn in Hc; [done|..]; injection Hc as <-.
  - by apply not_elem_of_nil in Hin.
  - by apply list_elem_of_singleton in Hin as ->.
Qed.

(** C6: in a call with [enable_file=True], the backend builds the
    file sinks on the file system that
    [log_dir.mkdir(parents=True, exist_ok=True)] left, so a file
    handler is in the registry only if that call had returned and the
    directory existed; on a directory that already exists the creation
    returns and changes nothing; and after a call that returns the
    directory exists. *)
Theorem setup_logger_directory_first a w :
  enable_file a = true →
  ∃ a' d, env_overrides a w = (Ok a', w) ∧ resolve_log_dir a w = (Ok d, w) ∧
    let w' := snd (setup_logger a w) in
    let wm := snd (Path_ops.mkdir d w) in
    (returns (setup_logger a) w = true → os.is_dir (fs w') d = true) ∧
    (∀ h, h ∈ handlers w' → is_file_sink h = true →
       fst (Path_ops.mkdir d w) = Ok () ∧
       os.is_dir (fs wm) d = true ∧ os.is_dir (fs w') d = true) ∧
    (os.is_dir (fs w) d = true → Path_ops.mkdir d w = (Ok (), w)) ∧
    (∀ hc, console_part a' = Some hc → fst (Path_ops.mkdir d w) = Ok () →
       fs w' = snd (fst (file_part d a' (fs wm) hc)) ∧
       handlers w' = snd (file_part d a' (fs wm) hc)).
Proof.
  intros Hf.
  destruct (setup_logger_inputs a w) as (a' & d & r & wm & Ha & Hd & Hm).
  exists a', d. split; [done|]. split; [done|]. cbn zeta. unfold returns.
  rewrite (setup_logger_run a w a' d r wm Ha Hd Hm), Hf, Hm. cbn [fst snd].
  split; [|split; [|split]].
  - destruct (console_part a') as [hc|]; [|done].
    destruct r as [[]|e]; [|done].
    pose proof (file_part_is_dir d a' (fs wm) hc d (mkdir_ok d w wm Hm)) as Hk.
    by destruct (file_part d a' (fs wm) hc) as [[[e|] f] hs].
  - intros h.
    destruct (console_part a') as [hc|] eqn:Hc;
      [|by intros ?%not_elem_of_nil].
    destruct r as [[]|e].
    + pose proof (file_part_is_dir d a' (fs wm) hc d (mkdir_ok d w wm Hm)) as Hk.
      pose proof (mkdir_ok d w wm Hm) as Hdir.
      by destruct (file_part d a' (fs wm) hc) as [[[e|] f] hs].
    + simpl. intros Hin Hfile.
      by rewrite (no_file_sink_in_console_part a' hc h Hc Hin) in Hfile.
  - intros Hex. rewrite (mkdir_exists d w Hex) in Hm. by injection Hm as <- <-.
  - intros hc Hc. rewrite Hc. intros ->.
    by destruct (file_part d a' (fs wm) hc) as [[[e|] f] hs].
Qed.

(** ** setup_logger: the environment overrides *)

Lemma upper_ascii_no_lower c :
  negb (Nat.leb 97 (nat_of_ascii (upper_ascii c))
        && Nat.leb (nat_of_ascii (upper_ascii c)) 122) = true.
Proof. destruct c as [[] [] [] [] [] [] [] []]; reflexivity. Qed.

Lemma ascii_upper_no_lower s : no_lower (ascii_upper s) = true.
Proof.
  induction s as [|c s IH]; [done|].
  cbn [ascii_upper no_lower]. by rewrite upper_ascii_no_lower, IH.
Qed.

Lemma ascii_upper_length s : String.length (ascii_upper s) = String.length s.
Proof. induction s as [|c s IH]; [done|]. simpl. by rewrite IH. Qed.

(** On a string of ASCII characters [str.upper] turns the letters
    [a]-[z] into [A]-[Z] and keeps the rest. *)
Hypothesis upper_on_ascii : ∀ s, is_ascii s = true → upper s = ascii_upper s.

(** C2: [LOG_LEVEL], [LOG_ROTATION] and [LOG_RETENTION], when set,
    replace the caller's [log_level], [rotation] and [retention]; the
    level in force is [upper()] of whichever value was chosen, which
    for an ASCII value is that value with its letters in upper case,
    of the same length and with no lower-case letter left; and these
    are the values the registered handlers carry. *)
Theorem env_overrides_precedence a w :
  ∃ a', env_overrides a w = (Ok a', w) ∧
    (∀ v, environ w !! "LOG_LEVEL" = Some v → log_level a' = upper v) ∧
    (∀ v, environ w !! "LOG_ROTATION" = Some v → rotation a' = v) ∧
    (∀ v, environ w !! "LOG_RETENTION" = Some v → retention a' = v) ∧
    (environ w !! "LOG_LEVEL" = None → log_level a' = upper (log_level a)) ∧
    (environ w !! "LOG_ROTATION" = None → rotation a' = rotation a) ∧
    (environ w !! "LOG_RETENTION" = None → retention a' = retention a) ∧
    (∀ v, v = default (log_level a) (environ w !! "LOG_LEVEL") →
          is_ascii v = true →
          log_level a' = ascii_upper v ∧
          no_lower (log_level a') = true ∧
          String.length (log_level a') = String.length v) ∧
    (enable_console a = true → ∀ n, level_no (log_level a') = Some n →
       console_handler (log_level a') n ∈ handlers (snd (setup_logger a w))) ∧
    (enable_file a = true → returns (setup_logger a) w = true →
       ∃ d, combined_handler d a' ∈ handlers (snd (setup_logger a w)) ∧
            error_handler d a' ∈ handlers (snd (setup_logger a w))).
Proof.
  destruct (setup_logger_inputs a w) as (a' & d & r & wm & Ha & Hd & Hm).
  exists a'. split; [done|].
  pose proof (setup_logger_run a w a' d r wm Ha Hd Hm) as Hrun.
  assert (enable_console a' = enable_console a) as Hc.
  { rewrite env_overrides_run in Ha. by injection Ha as <-. }
  rewrite env_overrides_run in Ha. injection Ha as Ha.
  split; [|split; [|split; [|split; [|split; [|split; [|split; [|split]]]]]]].
  - intros v Hv. rewrite <- Ha, Hv. reflexivity.
  - intros v Hv. rewrite <- Ha, Hv. reflexivity.
  - intros v Hv. rewrite <- Ha, Hv. reflexivity.
  - intros Hv. rewrite <- Ha, Hv. reflexivity.
  - intros Hv. rewrite <- Ha, Hv. reflexivity.
  - intros Hv. rewrite <- Ha, Hv. reflexivity.
  - intros v -> Hasc.
    assert (log_level a'
            = ascii_upper (default (log_level a) (environ w !! "LOG_LEVEL")))
      as -> by (rewrite <- Ha; simpl; by apply upper_on_ascii).
    by rewrite ascii_upper_no_lower, ascii_upper_length.
  - intros Hcon n Hn. rewrite Hrun. unfold console_part.
    rewrite Hc, Hcon, Hn. simpl.
    destruct (enable_file a); [destruct r as [[]|e]|]; simpl;
      try (destruct (file_part_cases d a' (fs wm)
                       [console_handler (log_level a') n])
             as [(f' & ->) | [(e & f' & ->) | (e & f' & ->)]]);
      simpl; rewrite ?elem_of_cons; auto.
  - intros Hfile Hret. exists d. unfold returns in Hret.
    rewrite Hrun in Hret |- *. rewrite Hfile in Hret |- *.
    destruct (console_part a') as [hc|]; [|done].
    destruct r as [[]|e]; [|done].
    destruct (file_part_cases d a' (fs wm) hc)
      as [(f' & Hfp) | [(e & f' & Hfp) | (e & f' & Hfp)]];
      rewrite Hfp in Hret |- *; [|done..].
    simpl. rewrite !elem_of_app, !elem_of_cons. auto.
Qed.

End run.

(** ** setup_logger: an explicit log_dir *)

(** C10: when the caller passes [log_dir], that directory is the one
    used: it is the one created (a failure to create it is the call's
    failure), after a call that returns it exists and the two file
    handlers write below it, and the outcome, the registry and the file
    system are the same whatever [LOG_DIR] holds (or if it is unset)
    and whatever [get_system_env_dir] would answer. Without [log_dir]
    the directory is the one [get_log_dir] returns. *)
Theorem setup_logger_explicit_log_dir
    (g : gmap string string → Path) (up : string → string)
    (fsi : Path → option string → option string → option string →
           FileSystem → option Exn * gmap (list string) Node)
    (a : Args) (w : World) :
  (∀ d, log_dir a = Some d →
     let w1 := snd (setup_logger g up fsi a w) in
     resolve_log_dir g a w = (Ok d, w) ∧
     (∀ (g' : gmap string string → Path) (o : option string),
        let w' := set_environ (partial_alter (λ _, o) "LOG_DIR" (environ w)) w in
        fst (setup_logger g' up fsi a w') = fst (setup_logger g up fsi a w) ∧
        handlers (snd (setup_logger g' up fsi a w')) = handlers w1 ∧
        fs (snd (setup_logger g' up fsi a w')) = fs w1) ∧
     (enable_file a = true → returns (setup_logger g up fsi a) w = true →
        os.is_dir (fs w1) d = true ∧
        ∃ a' hc, env_overrides up a w = (Ok a', w) ∧
          handlers w1 = (hc ++ [combined_handler d a'; error_handler d a'])%list ∧
          Forall (λ h, is_file_sink h = false) hc) ∧
     (enable_file a = true → ∀ a' hc e wm,
        env_overrides up a w = (Ok a', w) → console_part a' = Some hc →
        Path_ops.mkdir d w = (Raise e, wm) →
        fst (setup_logger g up fsi a w) = Raise e)) ∧
  (log_dir a = None → resolve_log_dir g a w = get_log_dir g w).
Proof.
  split; [|by unfold resolve_log_dir; intros ->].
  intros d Hdir. cbn zeta.
  assert (∀ g0 w0, resolve_log_dir g0 a w0 = (Ok d, w0)) as Hres
    by (intros; unfold resolve_log_dir; by rewrite Hdir).
  split; [apply Hres|].
  destruct (Path_ops.mkdir d w) as [r wm] eqn:Hm.
  pose proof (setup_logger_run g up fsi a w _ d r wm (env_overrides_run up a w)
                (Hres g w) Hm) as Hrun.
  set (a' := MkArgs _ _ _ _ _ _ _) in Hrun.
  split; [|split].
  - intros g' o. set (w' := set_environ _ w).
    assert (env_overrides up a w' = (Ok a', w')) as Ha'.
    { rewrite env_overrides_run. subst w' a'. simpl environ.
      by rewrite !lookup_partial_alter_ne. }
    rewrite (setup_logger_run g' up fsi a w' a' d r (set_fs (fs wm) w') Ha'
               (Hres g' w') (mkdir_transfer d w r wm Hm w' eq_refl)), Hrun.
    destruct (console_part a') as [hc|]; [|done].
    destruct (enable_file a); [|done].
    destruct r as [[]|e]; [|done]. cbn [fs set_fs].
    by destruct (file_part fsi d a' (fs wm) hc) as [[[e|] f] hs].
  - intros Hf Hret. unfold returns in Hret. rewrite Hrun, Hf in Hret |- *.
    destruct (console_part a') as [hc|] eqn:Hc; [|done].
    destruct r as [[]|e]; [|done].
    pose proof (file_part_is_dir fsi d a' (fs wm) hc d (mkdir_ok d w wm Hm))
      as Hk.
    destruct (file_part_cases fsi d a' (fs wm) hc)
      as [(f' & Hfp) | [(e & f' & Hfp) | (e & f' & Hfp)]];
      rewrite Hfp in Hret, Hk |- *; [|done..].
    split; [exact Hk|]. exists a', hc. split; [apply env_overrides_run|].
    split; [done|]. apply Forall_forall. intros h Hin.
    by apply (no_file_sink_in_console_part a' hc).
  - intros Hf a0 hc e wm0 Ha0 Hc Hm0.
    rewrite env_overrides_run in Ha0. injection Ha0 as <-.
    injection Hm0 as -> ->. fold a' in Hc. by rewrite Hrun, Hc, Hf.
Qed.

(** * Further behaviour of the module *)

(** ** Where the log files go *)


Lemma file_sink_paths_differ (d : Path) :
  d // combined_name ≠ d // error_name.
Proof.
  unfold pathlib.truediv. simpl. intros [= H%app_inv_head]. discriminate.
Qed.

Section behaviour.

Variable get_system_env_dir : gmap string string → Path.
Variable upper : string → string.
Variable file_sink_init :
  Path → option string → option string → option string → FileSystem →
  option Exn * gmap (list string) Node.

Local Abbreviation get_log_dir := (logger.get_log_dir get_system_env_dir).
Local Abbreviation resolve_log_dir := (logger.resolve_log_dir get_system_env_dir).
Local Abbreviation env_overrides := (logger.env_overrides upper).
Local Abbreviation setup_logger :=
  (logger.setup_logger get_system_env_dir upper file_sink_init).
Local Abbreviation file_part := (logger.file_part file_sink_init).

(** X4: with [enable_console=True] and a level in force that the
    backend does not know, the call raises [ValueError] at the console
    registration: the registry has been emptied, nothing is created in
    the file system and no log call is made, also when
    [enable_file=True]. *)
Theorem setup_logger_unknown_level_raises a w a' :
  enable_console a = true →
  env_overrides a w = (Ok a', w) →
  level_no (log_level a') = None →
  setup_logger a w =
    (Raise (ValueError ("Level '" ++ log_level a' ++ "' does not exist")),
     set_handlers [] w).
Proof.
  intros Hc Ha Hn.
  destruct (setup_logger_inputs get_system_env_dir upper a w)
    as (a0 & d & r & wm & Ha0 & Hd & Hm).
  assert (a0 = a') as -> by congruence.
  rewrite (setup_logger_run _ _ _ a w a' d r wm Ha Hd Hm).
  assert (enable_console a' = true) as Hc'.
  { rewrite env_overrides_run in Ha. by injection Ha as <-. }
  unfold console_part. by rewrite Hc', Hn.
Qed.

(** X5: a call that raises has made no log call. *)
Theorem setup_logger_failure_silent a w e :
  fst (setup_logger a w) = Raise e →
  emissions (snd (setup_logger a w)) = emissions w.
Proof.
  destruct (setup_logger_inputs get_system_env_dir upper a w)
    as (a' & d & r & wm & Ha & Hd & Hm).
  rewrite (setup_logger_run _ _ _ a w a' d r wm Ha Hd Hm).
  destruct (console_part a') as [hc|]; [|done].
  destruct (enable_file a); [destruct r as [[]|e']|]; try done.
  by destruct (file_part d a' (fs wm) hc) as [[[e'|] f] hs].
Qed.

(** X12: [exist_ok=True] does not cover a regular file: when the log
    directory's path is a file, a call with [enable_file=True] that
    reaches the directory creation raises [FileExistsError], registers
    no file handler and leaves the file system as it was. *)
Theorem setup_logger_dir_is_file a w a' d hc :
  enable_file a = true →
  env_overrides a w = (Ok a', w) →
  resolve_log_dir a w = (Ok d, w) →
  console_part a' = Some hc →
  os.node_at (fs w) d = Some File →
  setup_logger a w =
    (Raise FileExistsError, MkWorld (environ w) (fs w) hc (emissions w)).
Proof.
  intros Hf Ha Hd Hc Hnode.
  assert (Path_ops.mkdir d w = (Raise FileExistsError, w)) as Hm.
  { assert (os.mkdir d w = (Raise FileExistsError, w)) as Hos.
    { unfold os.mkdir, mbind, M_bind, get_world, raise.
      unfold os.node_at in Hnode.
      destruct (os.locate (fs w) d) as [k|e0]; [|done]. by rewrite Hnode. }
    assert (Path_ops.exist_ok_handler d FileExistsError w
              = (Raise FileExistsError, w)) as Hh.
    { unfold Path_ops.exist_ok_handler, mbind, M_bind, get_world, raise.
      simpl. unfold os.is_dir. by rewrite Hnode. }
    unfold Path_ops.mkdir.
    destruct (length (pathlib.names d)); simpl; unfold try_except;
      by rewrite Hos. }
  by rewrite (setup_logger_run _ _ _ a w a' d _ w Ha Hd Hm), Hc, Hf.
Qed.

(** X6: the [log_level] parameter is read through [upper()] only: two
    calls whose level parameters differ in letter case alone do the
    same, down to the whole resulting world. *)
Theorem setup_logger_level_case l1 l2 dir ro re c ec ef w :
  upper l1 = upper l2 →
  setup_logger (MkArgs l1 dir ro re c ec ef) w =
  setup_logger (MkArgs l2 dir ro re c ec ef) w.
Proof.
  intros Hu.
  assert (upper (default l1 (environ w !! "LOG_LEVEL"))
          = upper (default l2 (environ w !! "LOG_LEVEL"))) as Heq
    by (by destruct (environ w !! "LOG_LEVEL")).
  destruct (resolve_log_dir_total get_system_env_dir
              (MkArgs l1 dir ro re c ec ef) w) as [d Hd].
  destruct (Path_ops.mkdir d w) as [r wm] eqn:Hm.
  rewrite (setup_logger_run _ _ _ (MkArgs l1 dir ro re c ec ef) w _ d r wm
             (env_overrides_run _ _ w) Hd Hm).
  rewrite (setup_logger_run _ _ _ (MkArgs l2 dir ro re c ec ef) w _ d r wm
             (env_overrides_run _ _ w) Hd Hm).
  simpl. by rewrite Heq.
Qed.

(** X10: leaving [log_dir] out is the same as passing the result of
    [get_log_dir()]. *)
Theorem setup_logger_default_dir l ro re c ec ef w d :
  fst (get_log_dir w) = Ok d →
  setup_logger (MkArgs l None ro re c ec ef) w =
  setup_logger (MkArgs l (Some d) ro re c ec ef) w.
Proof.
  intros Hg.
  assert (get_log_dir w = (Ok d, w)) as Hg'.
  { rewrite get_log_dir_run in Hg |- *. simpl in Hg. congruence. }
  destruct (Path_ops.mkdir d w) as [r wm] eqn:Hm.
  rewrite (setup_logger_run _ _ _ (MkArgs l None ro re c ec ef) w _ d r wm
             (env_overrides_run _ _ w) Hg' Hm).
  by rewrite (setup_logger_run _ _ _ (MkArgs l (Some d) ro re c ec ef) w _ d r wm
                (env_overrides_run _ _ w) eq_refl Hm).
Qed.

(** X3: a call with [enable_file=False] does not touch the file
    system, and neither [LOG_DIR] nor [get_system_env_dir] has any
    bearing on its outcome, its registry or its log calls. *)
Theorem setup_logger_console_only
    (g' : gmap string string → Path) (o : option string) a w :
  enable_file a = false →
  let w' := set_environ (partial_alter (λ _, o) "LOG_DIR" (environ w)) w in
  fs (snd (setup_logger a w)) = fs w ∧
  fst (logger.setup_logger g' upper file_sink_init a w') = fst (setup_logger a w) ∧
  handlers (snd (logger.setup_logger g' upper file_sink_init a w')) = handlers (snd (setup_logger a w)) ∧
  emissions (snd (logger.setup_logger g' upper file_sink_init a w')) = emissions (snd (setup_logger a w)).
Proof.
  intros Hf w'.
  destruct (setup_logger_inputs get_system_env_dir upper a w)
    as (a' & d & r & wm & Ha & Hd & Hm).
  destruct (setup_logger_inputs g' upper a w')
    as (a0 & d' & r' & wm' & Ha0 & Hd' & Hm').
  assert (a0 = a') as ->.
  { rewrite env_overrides_run in Ha, Ha0. subst w'. simpl environ in Ha0.
    rewrite !lookup_partial_alter_ne in Ha0 by done. congruence. }
  rewrite (setup_logger_run _ _ _ a w a' d r wm Ha Hd Hm).
  rewrite (setup_logger_run _ _ _ a w' a' d' r' wm' Ha0 Hd' Hm').
  rewrite Hf. by destruct (console_part a').
Qed.

(** X7: with [enable_console=False] the level is only text in the
    summary line: whatever the [log_level] parameter and whatever
    [LOG_LEVEL] holds (known to the backend or not), the outcome, the
    registry and the file system are the same, as long as
    [get_system_env_dir] does not read [LOG_LEVEL]. *)
Theorem setup_logger_level_unused l1 l2 dir ro re c ef (o : option string) w :
  let a1 := MkArgs l1 dir ro re c false ef in
  let a2 := MkArgs l2 dir ro re c false ef in
  let w' := set_environ (partial_alter (λ _, o) "LOG_LEVEL" (environ w)) w in
  get_system_env_dir (environ w') = get_system_env_dir (environ w) →
  fst (setup_logger a2 w') = fst (setup_logger a1 w) ∧
  handlers (snd (setup_logger a2 w')) = handlers (snd (setup_logger a1 w)) ∧
  fs (snd (setup_logger a2 w')) = fs (snd (setup_logger a1 w)).
Proof.
  intros a1 a2 w' Hg.
  destruct (resolve_log_dir_total get_system_env_dir a1 w) as [d Hd].
  assert (resolve_log_dir a2 w' = (Ok d, w')) as Hd'.
  { revert Hd. unfold logger.resolve_log_dir. simpl.
    destruct dir; [by intros [= ->]|].
    rewrite !get_log_dir_run, Hg. subst w'. simpl environ.
    rewrite !lookup_partial_alter_ne by done. by intros [= ->]. }
  destruct (Path_ops.mkdir d w) as [r wm] eqn:Hm.
  pose proof (setup_logger_run _ _ file_sink_init a1 w _ d r wm
                (env_overrides_run upper a1 w) Hd Hm) as H1.
  pose proof (setup_logger_run _ _ file_sink_init a2 w' _ d r
                (set_fs (fs wm) w') (env_overrides_run upper a2 w') Hd'
                (mkdir_transfer d w r wm Hm w' eq_refl)) as H2.
  set (a1' := MkArgs _ _ _ _ _ _ _) in H1.
  set (a2' := MkArgs _ _ _ _ _ _ _) in H2.
  assert (∀ f hc, file_part d a2' f hc = file_part d a1' f hc) as Hfp.
  { intros f hc. apply file_part_args; subst a1' a2' w'; simpl;
      by rewrite ?lookup_partial_alter_ne. }
  change (console_part a1') with (Some (@nil Handler)) in H1.
  change (console_part a2') with (Some (@nil Handler)) in H2.
  rewrite H1, H2. cbn [enable_file a1 a2].
  destruct ef; [|done]. destruct r as [[]|e]; [|done].
  cbn [fs set_fs]. rewrite Hfp.
  by destruct (file_part d a1' (fs wm) []) as [[[e|] f] hs].
Qed.


(** X8: of the log calls a returning call makes, none reaches the
    error file handler; each reaches the combined file handler when
    [enable_file]; and each reaches the console exactly when the
    console is enabled and its level is not above the record's (INFO
    for the directory line, DEBUG for the summary line). *)
Theorem setup_logger_own_lines a w :
  returns (setup_logger a) w = true →
  ∃ a' d new,
    env_overrides a w = (Ok a', w) ∧ resolve_log_dir a w = (Ok d, w) ∧
    emissions (snd (setup_logger a w)) = (emissions w ++ new)%list ∧
    ∀ e, e ∈ new →
      (FileSink (d // error_name) ∉ receivers e) ∧
      (enable_file a = true → FileSink (d // combined_name) ∈ receivers e) ∧
      (Stderr ∈ receivers e ↔
         enable_console a = true ∧
         ∃ n, level_no (log_level a') = Some n ∧ (n ≤ rec_no (emitted e))%nat).
Proof.
  intros Hret.
  destruct (setup_logger_inputs get_system_env_dir upper a w)
    as (a' & d & r & wm & Ha & Hd & Hm).
  exists a', d. unfold returns in Hret.
  rewrite (setup_logger_run _ _ _ a w a' d r wm Ha Hd Hm) in Hret |- *.
  assert (enable_console a' = enable_console a) as Hcon.
  { rewrite env_overrides_run in Ha. by injection Ha as <-. }
  pose proof (file_sink_paths_differ d) as Hne.
  assert (∀ hs r0 x, x ∈ receivers (logger_ops.deliver hs r0) ↔
            ∃ h, h ∈ hs ∧ accepts h r0 = true ∧ sink h = x) as Hrecv.
  { intros hs r0 x. unfold logger_ops.deliver. simpl.
    rewrite list_elem_of_fmap. setoid_rewrite list_elem_of_In.
    setoid_rewrite List.filter_In. split.
    - intros (h & Hx & Hin & Hac). by exists h.
    - intros (h & Hin & Hac & Hx). by exists h. }
  destruct (console_part a') as [hc|] eqn:Hc; [|done].
  assert (∀ h r0, h ∈ hc → accepts h r0 = true ↔
            ∃ n, level_no (log_level a') = Some n ∧ (n ≤ rec_no r0)%nat)
    as Hacc.
  { intros h r0 Hin.
    destruct (console_part_cases a') as [Hn | [[Hn _] | (n & Hl & _ & Hn)]];
      rewrite Hn in Hc; [done|..]; injection Hc as <-.
    - by apply not_elem_of_nil in Hin.
    - apply list_elem_of_singleton in Hin as ->. unfold accepts. simpl.
      rewrite Nat.leb_le. split; [by exists n|].
      intros (n' & Hn' & Hle). congruence. }
  assert (∀ h, h ∈ hc → sink h = Stderr ∧ enable_console a = true) as Hsink.
  { intros h Hin.
    destruct (console_part_cases a') as [Hn | [[Hn _] | (n & _ & Hen & Hn)]];
      rewrite Hn in Hc; [done|..]; injection Hc as <-.
    - by apply not_elem_of_nil in Hin.
    - apply list_elem_of_singleton in Hin as ->. by rewrite <- Hcon. }
  assert (enable_console a = true →
          ∀ n, level_no (log_level a') = Some n →
               hc = [console_handler (log_level a') n]) as Hhc.
  { intros Hen n Hl. unfold console_part in Hc.
    rewrite Hcon, Hen, Hl in Hc. simpl in Hc. congruence. }
  destruct (enable_file a) eqn:Hf.
  - destruct r as [[]|e0]; [|done].
    destruct (file_part_cases file_sink_init d a' (fs wm) hc)
      as [(f' & Hfp) | [(e1 & f' & Hfp) | (e1 & f' & Hfp)]];
      rewrite Hfp in Hret |- *; [|done..].
    cbn zeta. cbn [snd emissions].
    eexists. split; [done|]. split; [done|]. split; [reflexivity|].
    intros e He. rewrite !elem_of_cons, elem_of_nil in He.
    assert (∃ r0,
              (r0 = MkRecord "INFO" 20 (info_message d) ∨
               r0 = MkRecord "DEBUG" 10
                      (debug_message (log_level a') (enable_console a) true)) ∧
              e = logger_ops.deliver
                    (hc ++ [combined_handler d a'; error_handler d a']) r0)
      as (r0 & Hrec & ->)
      by (destruct He as [-> | [-> | []]]; eexists; eauto).
    change (emitted (logger_ops.deliver _ r0)) with r0.
    rewrite !Hrecv. split; [|split].
    + intros (h & Hin & Hac & Hs).
      rewrite elem_of_app, !elem_of_cons, elem_of_nil in Hin.
      destruct Hin as [Hin | [-> | [-> | []]]].
      * apply Hsink in Hin as [? _]. congruence.
      * simpl in Hs. congruence.
      * unfold accepts in Hac. simpl in Hac.
        destruct Hrec as [-> | ->]; simpl in Hac; done.
    + intros _. exists (combined_handler d a').
      split; [rewrite elem_of_app, elem_of_cons; auto|]. split; [|done].
      unfold accepts. by destruct Hrec as [-> | ->].
    + split.
      * intros (h & Hin & Hac & Hs).
        rewrite elem_of_app, !elem_of_cons, elem_of_nil in Hin.
        destruct Hin as [Hin | [-> | [-> | []]]]; try done.
        split; [by apply (Hsink h)|]. by apply (Hacc h).
      * intros (Hen & n & Hl & Hle).
        exists (console_handler (log_level a') n).
        rewrite (Hhc Hen n Hl).
        split; [rewrite elem_of_app, elem_of_cons; auto|]. split; [|done].
        by apply Nat.leb_le.
  - cbn [snd emissions].
    eexists. split; [done|]. split; [done|]. split; [reflexivity|].
    intros e ->%list_elem_of_singleton.
    rewrite !Hrecv. split; [|split; [done|]].
    + intros (h & Hin & _ & Hs). apply Hsink in Hin as [? _]. congruence.
    + split.
      * intros (h & Hin & Hac & Hs).
        split; [by apply (Hsink h)|]. by apply (Hacc h).
      * intros (Hen & n & Hl & Hle).
        exists (console_handler (log_level a') n).
        rewrite (Hhc Hen n Hl).
        split; [by apply list_elem_of_singleton|]. split; [|done].
        by apply Nat.leb_le.
Qed.

(** On a string of ASCII characters [str.upper] turns the letters
    [a]-[z] into [A]-[Z] and keeps the rest. *)
Hypothesis upper_on_ascii : ∀ s, is_ascii s = true → upper s = ascii_upper s.

(** X11: an empty [LOG_LEVEL] is a value, not an absent variable
    (unlike an empty [LOG_DIR]): it replaces the caller's level, and
    with [enable_console=True] the call raises [ValueError] whatever
    level the caller passed. *)
Theorem setup_logger_empty_level a w :
  environ w !! "LOG_LEVEL" = Some "" →
  enable_console a = true →
  setup_logger a w =
    (Raise (ValueError "Level '' does not exist"), set_handlers [] w).
Proof.
  intros Hv Hc.
  destruct (setup_logger_inputs get_system_env_dir upper a w)
    as (a' & d & r & wm & Ha & Hd & Hm).
  rewrite (setup_logger_run _ _ _ a w a' d r wm Ha Hd Hm).
  rewrite env_overrides_run, Hv in Ha. injection Ha as <-.
  unfold console_part. simpl.
  rewrite (upper_on_ascii "" eq_refl). simpl. by rewrite Hc.
Qed.

End behaviour.

(** ** The statements at the sample worlds *)

Lemma ascii_upper_on_ascii :
  ∀ s, is_ascii s = true → ascii_upper s = ascii_upper s.
Proof. reflexivity. Qed.

Lemma get_log_dir_resolves_witness :
  let w := samples.world samples.tmp_env [] in
  let w0 := samples.world samples.home_env [] in
  get_log_dir samples.config_dir w = (Ok (pathlib.of_string "/tmp/x"), w) ∧
  pathlib.str (pathlib.of_string "/tmp/x") = "/tmp/x" ∧
  get_log_dir samples.config_dir w0 =
    (Ok (pathlib.of_string "/home/u/.config/valuecell" // "logs"), w0).
Proof.
  intros w w0. split; [|split].
  - apply (proj1 (get_log_dir_resolves samples.config_dir w));
      [vm_compute; reflexivity|discriminate].
  - reflexivity.
  - apply (proj1 (proj2 (get_log_dir_resolves samples.config_dir w0))).
    left. vm_compute; reflexivity.
Defined.

Lemma env_overrides_precedence_witness :
  let w := samples.world samples.tmp_env [] in
  ∃ a', logger.env_overrides ascii_upper default_args w = (Ok a', w) ∧
    log_level default_args = "INFO" ∧ log_level a' = "DEBUG" ∧
    rotation a' = "1 MB" ∧ retention a' = "7 days" ∧
    console_handler "DEBUG" 10 ∈ handlers (snd (samples.setup default_args w)).
Proof.
  intros w.
  destruct (env_overrides_precedence samples.config_dir ascii_upper
              samples.sink_init ascii_upper_on_ascii default_args w)
    as (a' & Ha & _ & Hro & Hre & _ & _ & _ & Hl & Hcon & _).
  assert (environ w !! "LOG_ROTATION" = Some "1 MB") as H2
    by (vm_compute; reflexivity).
  assert (environ w !! "LOG_RETENTION" = Some "7 days") as H3
    by (vm_compute; reflexivity).
  assert ("debug" = default (log_level default_args) (environ w !! "LOG_LEVEL"))
    as H1 by (vm_compute; reflexivity).
  destruct (Hl "debug" H1 eq_refl) as (Hl' & _ & _).
  change (ascii_upper "debug") with "DEBUG" in Hl'.
  exists a'. split; [exact Ha|]. split; [reflexivity|].
  split; [exact Hl'|]. split; [exact (Hro _ H2)|]. split; [exact (Hre _ H3)|].
  specialize (Hcon eq_refl 10). rewrite Hl' in Hcon. exact (Hcon eq_refl).
Defined.

Lemma setup_logger_twice_witness :
  let w := samples.world samples.home_env [samples.old_handler] in
  let w1 := snd (samples.setup default_args w) in
  let w2 := snd (samples.setup samples.console_only w1) in
  length (handlers w1) = 3 ∧
  handlers w2 =
    handlers (snd (samples.setup samples.console_only (set_handlers [] w1))) ∧
  NoDup (handlers w2) ∧
  length (handlers w2) = 1.
Proof.
  intros w w1 w2.
  pose proof (setup_logger_twice samples.config_dir ascii_upper
                samples.sink_init default_args
                samples.console_only w (set_handlers [] w1)
                (environ_set_handlers [] w1) (fs_set_handlers [] w1))
    as (Hsame & Hnd & Hret).
  split; [vm_compute; reflexivity|]. split; [exact Hsame|]. split; [exact Hnd|].
  assert (returns (samples.setup samples.console_only) w1 = true)
    as Hr by (vm_compute; reflexivity).
  destruct (Hret Hr) as (a' & d & _ & _ & _ & Hlen).
  exact Hlen.
Defined.

(** C3 as stated fails: after a first call, a second call that asks
    for the console and the two file sinks raises at the directory
    creation ([/var/log] is read-only) and leaves the console handler
    alone; with the same arguments and environment variables, but
    [/var/log] writable, it leaves all three. *)
Lemma setup_logger_twice_depends_on_disk :
  let a2 := samples.into "/var/log/valuecell" in
  let w := samples.world samples.no_env [samples.old_handler] in
  let v := MkWorld samples.no_env samples.open_disk [samples.old_handler] [] in
  let w1 := snd (samples.setup samples.console_only w) in
  let v1 := snd (samples.setup samples.console_only v) in
  environ w1 = environ v1 ∧ handlers w1 = handlers v1 ∧
  enable_console a2 = true ∧ enable_file a2 = true ∧
  fst (samples.setup a2 w1) = Raise PermissionError ∧
  length (handlers (snd (samples.setup a2 w1))) = 1 ∧
  fst (samples.setup a2 v1) = Ok () ∧
  length (handlers (snd (samples.setup a2 v1))) = 3.
Proof.
  vm_compute. repeat split.
Qed.

Lemma setup_logger_mkdir_failure_witness :
  let a := samples.into "/var/log/valuecell" in
  let w := samples.world samples.no_env [samples.old_handler] in
  samples.setup a w =
    (Raise PermissionError,
     samples.world samples.no_env [console_handler "INFO" 20]).
Proof.
  intros a w.
  assert (logger.env_overrides ascii_upper a w = (Ok a, w)) as Ha
    by (vm_compute; reflexivity).
  assert (resolve_log_dir samples.config_dir a w
            = (Ok (pathlib.of_string "/var/log/valuecell"), w)) as Hd
    by reflexivity.
  assert (console_part a = Some [console_handler "INFO" 20]) as Hc
    by reflexivity.
  assert (Path_ops.mkdir (pathlib.of_string "/var/log/valuecell") w
            = (Raise PermissionError, w)) as Hm by (vm_compute; reflexivity).
  exact (proj1 (setup_logger_mkdir_failure samples.config_dir ascii_upper
                  samples.sink_init a w a _ _ w _ Ha Hd eq_refl Hc Hm)).
Defined.

(** C4 as stated fails: [/var/log] is read-only, so creating
    [/var/log/valuecell] raises [PermissionError], which reaches the
    caller; no file handler is registered, and the registry is not what
    it was before the call: the earlier handler is gone and the new
    console handler is in. *)
Lemma setup_logger_mkdir_failure_resets :
  let a := samples.into "/var/log/valuecell" in
  let w := samples.world samples.no_env [samples.old_handler] in
  let w' := snd (samples.setup a w) in
  fst (Path_ops.mkdir (pathlib.of_string "/var/log/valuecell") w)
    = Raise PermissionError ∧
  fst (samples.setup a w) = Raise PermissionError ∧
  List.filter is_file_sink (handlers w') = [] ∧
  handlers w = [console_handler "WARNING" 30] ∧
  handlers w' = [console_handler "INFO" 20] ∧
  handlers w' ≠ handlers w.
Proof.
  vm_compute. repeat split. discriminate.
Qed.

Lemma setup_logger_file_sinks_witness :
  let w := samples.world samples.tmp_env [] in
  ∃ hc hcomb herr,
    handlers (snd (samples.setup default_args w))
      = (hc ++ [hcomb; herr])%list ∧
    sink hcomb = FileSink (pathlib.of_string "/tmp/x/valuecell_{time:YYYY-MM-DD}.log") ∧
    sink herr = FileSink (pathlib.of_string "/tmp/x/error_{time:YYYY-MM-DD}.log") ∧
    loguru.rotation hcomb = Some "1 MB" ∧
    loguru.retention herr = Some "7 days".
Proof.
  intros w.
  assert (returns (samples.setup default_args) w = true) as Hr
    by (vm_compute; reflexivity).
  destruct (setup_logger_file_sinks samples.config_dir ascii_upper
              samples.sink_init default_args w eq_refl Hr)
    as (a' & d & hc & Ha & Hd & Hhs & _ & _ & _ & _ & _).
  assert (resolve_log_dir samples.config_dir default_args w
            = (Ok (pathlib.of_string "/tmp/x"), w)) as Hd'
    by (vm_compute; reflexivity).
  rewrite Hd' in Hd. injection Hd as <-.
  assert (logger.env_overrides ascii_upper default_args w
            = (Ok (MkArgs "DEBUG" None "1 MB" "7 days" "zip" true true), w))
    as Ha' by (vm_compute; reflexivity).
  rewrite Ha' in Ha. injection Ha as <-.
  eexists hc, _, _. split; [exact Hhs|].
  split; [vm_compute; reflexivity|]. split; [vm_compute; reflexivity|].
  split; reflexivity.
Defined.

Lemma setup_logger_directory_first_witness :
  let w := samples.world samples.home_env [] in
  let w' := snd (samples.setup default_args w) in
  let d := pathlib.of_string "/home/u/.config/valuecell/logs" in
  let t := pathlib.of_string "/tmp" in
  os.is_dir (fs w) d = false ∧
  os.is_dir (fs w') d = true ∧
  os.is_dir (fs w) t = true ∧
  Path_ops.mkdir t w = (Ok (), w).
Proof.
  intros w w' d0 t.
  split; [vm_compute; reflexivity|].
  destruct (setup_logger_directory_first samples.config_dir ascii_upper
              samples.sink_init default_args w eq_refl)
    as (a' & d & Ha & Hd & Hret & _ & _ & _).
  assert (resolve_log_dir samples.config_dir default_args w = (Ok d0, w))
    as Hd' by (vm_compute; reflexivity).
  rewrite Hd' in Hd. injection Hd as <-.
  assert (returns (samples.setup default_args) w = true)
    as Hr by (vm_compute; reflexivity).
  split; [exact (Hret Hr)|].
  assert (os.is_dir (fs w) t = true) as Ht by (vm_compute; reflexivity).
  split; [exact Ht|].
  destruct (setup_logger_directory_first samples.config_dir ascii_upper
              samples.sink_init (samples.into "/tmp") w eq_refl)
    as (a2 & d2 & _ & Hd2 & _ & _ & Hnoop & _).
  assert (resolve_log_dir samples.config_dir (samples.into "/tmp") w = (Ok t, w))
    as Hd2' by reflexivity.
  rewrite Hd2' in Hd2. injection Hd2 as <-.
  exact (Hnoop Ht).
Defined.

Lemma setup_logger_console_sink_witness :
  let w := samples.world samples.tmp_env [samples.old_handler] in
  ∃ h rest,
    handlers (snd (samples.setup default_args w)) = h :: rest ∧
    sink h = Stderr ∧ colorize h = Some true ∧ level h = "DEBUG".
Proof.
  intros w.
  assert (logger.env_overrides ascii_upper default_args w
            = (Ok (MkArgs "DEBUG" None "1 MB" "7 days" "zip" true true), w))
    as Ha by (vm_compute; reflexivity).
  destruct (setup_logger_console_sink samples.config_dir ascii_upper
              samples.sink_init default_args w _ 10 eq_refl Ha eq_refl)
    as (h & rest & Hhs & _ & Hs & Hc & Hl & _).
  exists h, rest. repeat split; assumption.
Defined.

(** C7 as stated fails: with [LOG_LEVEL=verbose] the level in force is
    [VERBOSE], which the backend does not know; [logger.add] raises and
    the call with [enable_console=True] registers no console handler. *)
Lemma setup_logger_unknown_level :
  let w := samples.world samples.verbose_env [] in
  enable_console default_args = true ∧
  fst (samples.setup default_args w)
    = Raise (ValueError "Level 'VERBOSE' does not exist") ∧
  List.filter is_console_sink
    (handlers (snd (samples.setup default_args w))) = [].
Proof.
  vm_compute. repeat split.
Qed.

Lemma setup_logger_no_sinks_witness :
  let w := samples.world samples.verbose_env [samples.old_handler] in
  fst (samples.setup samples.silent w) = Ok () ∧
  handlers (snd (samples.setup samples.silent w)) = [].
Proof.
  intros w.
  exact (setup_logger_no_sinks samples.config_dir ascii_upper
           samples.sink_init samples.silent w eq_refl eq_refl).
Defined.


Lemma setup_logger_explicit_log_dir_witness :
  let a := samples.into "/tmp/app" in
  let w := samples.world samples.tmp_env [] in
  let w1 := snd (samples.setup a w) in
  let d := pathlib.of_string "/tmp/app" in
  environ w !! "LOG_DIR" = Some "/tmp/x" ∧
  os.is_dir (fs w) d = false ∧
  os.is_dir (fs w1) d = true ∧
  os.is_dir (fs w1) (pathlib.of_string "/tmp/x") = false ∧
  sink <$> List.filter is_file_sink (handlers w1) =
    [FileSink (d // combined_name); FileSink (d // error_name)].
Proof.
  intros a w w1 d.
  split; [vm_compute; reflexivity|]. split; [vm_compute; reflexivity|].
  assert (returns (samples.setup a) w = true) as Hr
    by (vm_compute; reflexivity).
  destruct (proj1 (setup_logger_explicit_log_dir samples.config_dir
                     ascii_upper samples.sink_init a w) d eq_refl)
    as (_ & _ & Hused & _).
  destruct (Hused eq_refl Hr) as (Hdir & a' & hc & _ & Hhs & Hnf).
  split; [exact Hdir|]. split; [vm_compute; reflexivity|].
  unfold w1, samples.setup. rewrite Hhs, List.filter_app.
  assert (List.filter is_file_sink hc = []) as ->.
  { clear -Hnf. induction Hnf as [|h l Hh _ IH]; [done|].
    simpl. by rewrite Hh. }
  reflexivity.
Defined.

(** ** The further statements at the sample worlds *)

Lemma setup_logger_console_only_witness :
  let w := samples.world samples.tmp_env [samples.old_handler] in
  let w' := set_environ (delete "LOG_DIR" (environ w)) w in
  let g' := λ _ : gmap string string, pathlib.of_string "/srv/elsewhere" in
  fs (snd (samples.setup samples.console_only w)) = fs w ∧
  handlers (snd (setup_logger g' ascii_upper samples.sink_init
                   samples.console_only w'))
    = handlers (snd (samples.setup samples.console_only w)).
Proof.
  intros w w' g'.
  destruct (setup_logger_console_only samples.config_dir ascii_upper
              samples.sink_init g' None samples.console_only w eq_refl)
    as (Hfs & _ & Hhs & _).
  split; [exact Hfs|exact Hhs].
Defined.

Lemma setup_logger_unknown_level_raises_witness :
  let w := samples.world samples.verbose_env [samples.old_handler] in
  samples.setup default_args w =
    (Raise (ValueError "Level 'VERBOSE' does not exist"),
     samples.world samples.verbose_env []).
Proof.
  intros w.
  assert (logger.env_overrides ascii_upper default_args w
            = (Ok (MkArgs "VERBOSE" None "10 MB" "30 days" "zip" true true), w))
    as Ha by (vm_compute; reflexivity).
  exact (setup_logger_unknown_level_raises samples.config_dir ascii_upper
           samples.sink_init default_args w _ eq_refl Ha eq_refl).
Defined.

Lemma setup_logger_empty_level_witness :
  let w := MkWorld {[ "LOG_LEVEL" := "" ]} samples.disk [samples.old_handler] [] in
  log_level default_args = "INFO" ∧
  fst (samples.setup default_args w)
    = Raise (ValueError "Level '' does not exist").
Proof.
  intros w. split; [reflexivity|].
  assert (environ w !! "LOG_LEVEL" = Some "") as Hv by (vm_compute; reflexivity).
  unfold samples.setup.
  by rewrite (setup_logger_empty_level samples.config_dir ascii_upper
                samples.sink_init ascii_upper_on_ascii default_args w
                Hv eq_refl).
Defined.

Lemma setup_logger_failure_silent_witness :
  let a := MkArgs "INFO" None "banana" "30 days" "zip" true true in
  let w := samples.world samples.home_env [samples.old_handler] in
  let run := setup_logger samples.config_dir ascii_upper samples.picky_init in
  fst (run a w) = Raise (ValueError "Cannot parse rotation from: 'banana'") ∧
  fst (run default_args w) = Raise PermissionError ∧
  emissions (snd (run a w)) = emissions w ∧
  emissions (snd (run default_args w)) = emissions w.
Proof.
  intros a w run.
  assert (fst (run a w)
          = Raise (ValueError "Cannot parse rotation from: 'banana'"))
    as He by (vm_compute; reflexivity).
  assert (fst (run default_args w) = Raise PermissionError)
    as He' by (vm_compute; reflexivity).
  split; [exact He|]. split; [exact He'|]. split.
  - exact (setup_logger_failure_silent samples.config_dir ascii_upper
             samples.picky_init a w _ He).
  - exact (setup_logger_failure_silent samples.config_dir ascii_upper
             samples.picky_init default_args w _ He').
Defined.

Lemma setup_logger_dir_is_file_witness :
  let w := MkWorld samples.no_env
             (MkFS {[ ["tmp"] := Dir true; ["tmp"; "logs"] := File ]} [])
             [samples.old_handler] [] in
  samples.setup (samples.into "/tmp/logs") w =
    (Raise FileExistsError,
     MkWorld (environ w) (fs w) [console_handler "INFO" 20] (emissions w)).
Proof.
  intros w.
  assert (logger.env_overrides ascii_upper (samples.into "/tmp/logs") w
            = (Ok (samples.into "/tmp/logs"), w)) as Ha
    by (vm_compute; reflexivity).
  assert (os.node_at (fs w) (pathlib.of_string "/tmp/logs") = Some File) as Hn
    by (vm_compute; reflexivity).
  exact (setup_logger_dir_is_file samples.config_dir ascii_upper
           samples.sink_init (samples.into "/tmp/logs")
           w _ _ _ eq_refl Ha eq_refl eq_refl Hn).
Defined.

Lemma setup_logger_level_case_witness :
  let w := samples.world samples.home_env [] in
  samples.setup (MkArgs "warning" None "10 MB" "30 days" "zip" true true) w =
  samples.setup (MkArgs "Warning" None "10 MB" "30 days" "zip" true true) w.
Proof.
  intros w.
  exact (setup_logger_level_case samples.config_dir ascii_upper
           samples.sink_init "warning" "Warning"
           None "10 MB" "30 days" "zip" true true w eq_refl).
Defined.

Lemma setup_logger_default_dir_witness :
  let w := samples.world samples.tmp_env [] in
  samples.setup (MkArgs "INFO" None "10 MB" "30 days" "zip" true true) w =
  samples.setup
    (MkArgs "INFO" (Some (pathlib.of_string "/tmp/x")) "10 MB" "30 days" "zip"
       true true) w.
Proof.
  intros w.
  assert (fst (get_log_dir samples.config_dir w) = Ok (pathlib.of_string "/tmp/x"))
    as Hg by (vm_compute; reflexivity).
  exact (setup_logger_default_dir samples.config_dir ascii_upper
           samples.sink_init "INFO" "10 MB" "30 days"
           "zip" true true w _ Hg).
Defined.

Lemma setup_logger_level_unused_witness :
  let w := samples.world samples.home_env [] in
  let w' := set_environ (<["LOG_LEVEL" := "verbose"]> (environ w)) w in
  let a1 := MkArgs "INFO" None "10 MB" "30 days" "zip" false true in
  let a2 := MkArgs "nonsense" None "10 MB" "30 days" "zip" false true in
  fst (samples.setup a1 w) = Ok () ∧
  fst (samples.setup a2 w') = fst (samples.setup a1 w) ∧
  handlers (snd (samples.setup a2 w')) = handlers (snd (samples.setup a1 w)).
Proof.
  intros w w' a1 a2. split; [vm_compute; reflexivity|].
  assert (samples.config_dir (environ w') = samples.config_dir (environ w))
    as Hg by (vm_compute; reflexivity).
  destruct (setup_logger_level_unused samples.config_dir ascii_upper
              samples.sink_init "INFO" "nonsense"
              None "10 MB" "30 days" "zip" true (Some "verbose") w Hg)
    as (H1 & H2 & _).
  split; [exact H1|exact H2].
Defined.


Lemma setup_logger_own_lines_witness :
  let w := samples.world samples.home_env [] in
  ∃ new,
    emissions (snd (samples.setup default_args w)) = new ∧
    length new = 2 ∧
    ∀ e, e ∈ new → Stderr ∈ receivers e ↔ (20 ≤ rec_no (emitted e))%nat.
Proof.
  intros w.
  assert (returns (samples.setup default_args) w = true)
    as Hr by (vm_compute; reflexivity).
  destruct (setup_logger_own_lines samples.config_dir ascii_upper
              samples.sink_init default_args w Hr)
    as (a' & d & new & Ha & Hd & Hem & Hall).
  assert (logger.env_overrides ascii_upper default_args w = (Ok default_args, w))
    as Ha' by (vm_compute; reflexivity).
  rewrite Ha' in Ha. injection Ha as <-.
  exists new. split; [exact Hem|]. split.
  - assert (length (emissions (snd (samples.setup default_args w))) = 2)
      as Hlen by (vm_compute; reflexivity).
    unfold samples.setup in Hlen. rewrite Hem in Hlen. exact Hlen.
  - intros e He. destruct (Hall e He) as (_ & _ & Hcon). rewrite Hcon.
    split.
    + intros (_ & n & Hn & Hle). injection Hn as <-. exact Hle.
    + intros Hle. split; [reflexivity|]. exists 20. split; [reflexivity|exact Hle].
Defined.
